(** * Adaptive Mirror: the behavioural signal pipeline of [main.js]

    A shallow embedding of the class [AdaptiveMirror] of [src/main.js]
    (event recorders, idle detector, session clock, classifier) and of
    the keyboard recorder of the sibling file [src/unnamed/part_000].

    Numbers.  JavaScript numbers are IEEE doubles.  Finite values are
    kept here as exact rationals ([Q]); [NaN] and the two infinities are
    separate constructors of [jsnum], used where the source tests for
    them ([isFinite], [safeNum], [normalizeScore]).  Rounding error of
    double arithmetic and the sign of zero are not modelled there; the
    module [Doubles] carries the arithmetic of the session clock out on
    binary64 numbers, where the rounding decides.  Every division of
    the source that is carried out in [Q] is guarded in the source by a
    test that its denominator is positive.

    Clock.  Each handler receives the reading of [performance.now()] as
    an argument [now]. *)

From Stdlib Require Import QArith Qabs Qround ZArith NArith Bool List String Lia Lqa.
From Stdlib Require Import Permutation Sorted.
From Stdlib Require Floats.PrimFloat.
Import ListNotations.

Open Scope Q_scope.

(** ** JavaScript numbers *)

Module JsNum.

Inductive jsnum : Type :=
| NaN
| PosInf
| NegInf
| Fin (q : Q).

Definition isFinite (v : jsnum) : bool :=
  match v with Fin _ => true | _ => false end.

Definition isNaN (v : jsnum) : bool :=
  match v with NaN => true | _ => false end.

(** [Math.round]: the nearest integer, halves towards +Infinity. *)
Definition Math_round (v : jsnum) : jsnum :=
  match v with
  | Fin q => Fin (inject_Z (Qfloor (q + (1 # 2))))
  | other => other
  end.

(** [Math.min] and [Math.max]: [NaN] is contagious. *)
Definition Math_min (a b : jsnum) : jsnum :=
  match a, b with
  | NaN, _ | _, NaN => NaN
  | NegInf, _ | _, NegInf => NegInf
  | PosInf, o | o, PosInf => o
  | Fin x, Fin y => if Qle_bool x y then Fin x else Fin y
  end.

Definition Math_max (a b : jsnum) : jsnum :=
  match a, b with
  | NaN, _ | _, NaN => NaN
  | PosInf, _ | _, PosInf => PosInf
  | NegInf, o | o, NegInf => o
  | Fin x, Fin y => if Qle_bool x y then Fin y else Fin x
  end.

Definition Math_abs (v : jsnum) : jsnum :=
  match v with
  | NaN => NaN
  | PosInf | NegInf => PosInf
  | Fin q => Fin (Qabs q)
  end.

(** [v] is an integer of the closed range [lo..hi]. *)
Definition int_in_range (lo hi : Z) (v : jsnum) : Prop :=
  exists z : Z, v = Fin (inject_Z z) /\ (lo <= z <= hi)%Z.

(** Comparisons of finite numbers, as booleans. *)
Definition Qltb (x y : Q) : bool := negb (Qle_bool y x).
Definition Qgtb (x y : Q) : bool := Qltb y x.
Definition Qgeb (x y : Q) : bool := Qle_bool y x.

(** Truthiness: [0] is falsy, as are [null] and [undefined]. *)
Definition truthyQ (q : Q) : bool := negb (Qeq_bool q 0).

Definition truthy (o : option Q) : bool :=
  match o with Some q => truthyQ q | None => false end.

(** [ToNumber]: [null] converts to [0]. *)
Definition to_num (o : option Q) : Q :=
  match o with Some q => q | None => 0 end.

(** [a || b] on numbers. *)
Definition or_else (a b : Q) : Q := if truthyQ a then a else b.

Definition Qmax2 (a b : Q) : Q := if Qle_bool a b then b else a.
Definition Qmin2 (a b : Q) : Q := if Qle_bool a b then a else b.

Definition NQ (n : N) : Q := inject_Z (Z.of_N n).

End JsNum.

Import JsNum.

(** ** Data model *)

Inductive Archetype : Type :=
| Impulsive
| Analytical
| Perfectionist
| Observer
| Restless.

Definition Archetype_eqb (a b : Archetype) : bool :=
  match a, b with
  | Impulsive, Impulsive | Analytical, Analytical
  | Perfectionist, Perfectionist | Observer, Observer
  | Restless, Restless => true
  | _, _ => false
  end.

(** [this.state.metrics].  The counters start at [0] and are only ever
    incremented, so they are naturals. *)
Record Metrics : Type := mkMetrics {
  mouseDistance : Q;
  velocitySum : Q;
  velocityCount : N;
  maxVelocity : Q;
  jitterCount : N;
  scrollCount : N;
  clickCount : N;
  keystrokes : N;
  backspaces : N;
  idleTime : Q;
  lastActivityTime : Q;
  firstActivityTime : option Q;
  directionChanges : N;
  maxScrollVelocity : Q
}.

Record Scores : Type := mkScores {
  focus : jsnum;
  hesitation : jsnum;
  controlBias : jsnum;
  energy : jsnum
}.

(** [this.state]; the fields that only feed audio, theme and canvas are
    left out. *)
Record State : Type := mkState {
  isObserving : bool;
  startTime : option Q;
  duration : Q;
  timeRemaining : Z;
  pausedTime : Q;
  hiddenTime : Q;
  metrics : Metrics;
  personality : option Archetype;
  scores : option Scores;
  themeApplied : bool;
  hidden : bool
}.

Record LastMouse : Type := mkLastMouse {
  lm_x : Q;
  lm_y : Q;
  lm_time : Q;
  lm_vx : Q;
  lm_vy : Q
}.

(** The instance: [this.state] and the fields kept on [this];
    [countdownTimer] and [idleTimer] say whether the interval
    [this.timers.countdown], [this.timers.idle] is set. *)
Record App : Type := mkApp {
  state : State;
  lastMouse : LastMouse;
  idleStart : option Q;
  isComposing : bool;
  isDestroyed : bool;
  countdownTimer : bool;
  idleTimer : bool
}.

(** Field updates. *)

Definition set_mouseDistance (v : Q) (m : Metrics) : Metrics :=
  mkMetrics v (velocitySum m) (velocityCount m) (maxVelocity m)
    (jitterCount m) (scrollCount m) (clickCount m) (keystrokes m)
    (backspaces m) (idleTime m) (lastActivityTime m) (firstActivityTime m)
    (directionChanges m) (maxScrollVelocity m).

Definition set_velocitySum (v : Q) (m : Metrics) : Metrics :=
  mkMetrics (mouseDistance m) v (velocityCount m) (maxVelocity m)
    (jitterCount m) (scrollCount m) (clickCount m) (keystrokes m)
    (backspaces m) (idleTime m) (lastActivityTime m) (firstActivityTime m)
    (directionChanges m) (maxScrollVelocity m).

Definition set_velocityCount (v : N) (m : Metrics) : Metrics :=
  mkMetrics (mouseDistance m) (velocitySum m) v (maxVelocity m)
    (jitterCount m) (scrollCount m) (clickCount m) (keystrokes m)
    (backspaces m) (idleTime m) (lastActivityTime m) (firstActivityTime m)
    (directionChanges m) (maxScrollVelocity m).

Definition set_maxVelocity (v : Q) (m : Metrics) : Metrics :=
  mkMetrics (mouseDistance m) (velocitySum m) (velocityCount m) v
    (jitterCount m) (scrollCount m) (clickCount m) (keystrokes m)
    (backspaces m) (idleTime m) (lastActivityTime m) (firstActivityTime m)
    (directionChanges m) (maxScrollVelocity m).

Definition set_jitterCount (v : N) (m : Metrics) : Metrics :=
  mkMetrics (mouseDistance m) (velocitySum m) (velocityCount m)
    (maxVelocity m) v (scrollCount m) (clickCount m) (keystrokes m)
    (backspaces m) (idleTime m) (lastActivityTime m) (firstActivityTime m)
    (directionChanges m) (maxScrollVelocity m).

Definition set_scrollCount (v : N) (m : Metrics) : Metrics :=
  mkMetrics (mouseDistance m) (velocitySum m) (velocityCount m)
    (maxVelocity m) (jitterCount m) v (clickCount m) (keystrokes m)
    (backspaces m) (idleTime m) (lastActivityTime m) (firstActivityTime m)
    (directionChanges m) (maxScrollVelocity m).

Definition set_clickCount (v : N) (m : Metrics) : Metrics :=
  mkMetrics (mouseDistance m) (velocitySum m) (velocityCount m)
    (maxVelocity m) (jitterCount m) (scrollCount m) v (keystrokes m)
    (backspaces m) (idleTime m) (lastActivityTime m) (firstActivityTime m)
    (directionChanges m) (maxScrollVelocity m).

Definition set_keystrokes (v : N) (m : Metrics) : Metrics :=
  mkMetrics (mouseDistance m) (velocitySum m) (velocityCount m)
    (maxVelocity m) (jitterCount m) (scrollCount m) (clickCount m) v
    (backspaces m) (idleTime m) (lastActivityTime m) (firstActivityTime m)
    (directionChanges m) (maxScrollVelocity m).

Definition set_backspaces (v : N) (m : Metrics) : Metrics :=
  mkMetrics (mouseDistance m) (velocitySum m) (velocityCount m)
    (maxVelocity m) (jitterCount m) (scrollCount m) (clickCount m)
    (keystrokes m) v (idleTime m) (lastActivityTime m) (firstActivityTime m)
    (directionChanges m) (maxScrollVelocity m).

Definition set_idleTime (v : Q) (m : Metrics) : Metrics :=
  mkMetrics (mouseDistance m) (velocitySum m) (velocityCount m)
    (maxVelocity m) (jitterCount m) (scrollCount m) (clickCount m)
    (keystrokes m) (backspaces m) v (lastActivityTime m)
    (firstActivityTime m) (directionChanges m) (maxScrollVelocity m).

Definition set_lastActivityTime (v : Q) (m : Metrics) : Metrics :=
  mkMetrics (mouseDistance m) (velocitySum m) (velocityCount m)
    (maxVelocity m) (jitterCount m) (scrollCount m) (clickCount m)
    (keystrokes m) (backspaces m) (idleTime m) v (firstActivityTime m)
    (directionChanges m) (maxScrollVelocity m).

Definition set_firstActivityTime (v : option Q) (m : Metrics) : Metrics :=
  mkMetrics (mouseDistance m) (velocitySum m) (velocityCount m)
    (maxVelocity m) (jitterCount m) (scrollCount m) (clickCount m)
    (keystrokes m) (backspaces m) (idleTime m) (lastActivityTime m) v
    (directionChanges m) (maxScrollVelocity m).

Definition set_directionChanges (v : N) (m : Metrics) : Metrics :=
  mkMetrics (mouseDistance m) (velocitySum m) (velocityCount m)
    (maxVelocity m) (jitterCount m) (scrollCount m) (clickCount m)
    (keystrokes m) (backspaces m) (idleTime m) (lastActivityTime m)
    (firstActivityTime m) v (maxScrollVelocity m).

Definition set_maxScrollVelocity (v : Q) (m : Metrics) : Metrics :=
  mkMetrics (mouseDistance m) (velocitySum m) (velocityCount m)
    (maxVelocity m) (jitterCount m) (scrollCount m) (clickCount m)
    (keystrokes m) (backspaces m) (idleTime m) (lastActivityTime m)
    (firstActivityTime m) (directionChanges m) v.

Definition set_isObserving (v : bool) (s : State) : State :=
  mkState v (startTime s) (duration s) (timeRemaining s) (pausedTime s)
    (hiddenTime s) (metrics s) (personality s) (scores s) (themeApplied s)
    (hidden s).

Definition set_startTime (v : option Q) (s : State) : State :=
  mkState (isObserving s) v (duration s) (timeRemaining s) (pausedTime s)
    (hiddenTime s) (metrics s) (personality s) (scores s) (themeApplied s)
    (hidden s).

Definition set_timeRemaining (v : Z) (s : State) : State :=
  mkState (isObserving s) (startTime s) (duration s) v (pausedTime s)
    (hiddenTime s) (metrics s) (personality s) (scores s) (themeApplied s)
    (hidden s).

Definition set_pausedTime (v : Q) (s : State) : State :=
  mkState (isObserving s) (startTime s) (duration s) (timeRemaining s) v
    (hiddenTime s) (metrics s) (personality s) (scores s) (themeApplied s)
    (hidden s).

Definition set_hiddenTime (v : Q) (s : State) : State :=
  mkState (isObserving s) (startTime s) (duration s) (timeRemaining s)
    (pausedTime s) v (metrics s) (personality s) (scores s) (themeApplied s)
    (hidden s).

Definition set_metrics (v : Metrics) (s : State) : State :=
  mkState (isObserving s) (startTime s) (duration s) (timeRemaining s)
    (pausedTime s) (hiddenTime s) v (personality s) (scores s)
    (themeApplied s) (hidden s).

Definition set_personality (v : option Archetype) (s : State) : State :=
  mkState (isObserving s) (startTime s) (duration s) (timeRemaining s)
    (pausedTime s) (hiddenTime s) (metrics s) v (scores s) (themeApplied s)
    (hidden s).

Definition set_scores (v : option Scores) (s : State) : State :=
  mkState (isObserving s) (startTime s) (duration s) (timeRemaining s)
    (pausedTime s) (hiddenTime s) (metrics s) (personality s) v
    (themeApplied s) (hidden s).

Definition set_themeApplied (v : bool) (s : State) : State :=
  mkState (isObserving s) (startTime s) (duration s) (timeRemaining s)
    (pausedTime s) (hiddenTime s) (metrics s) (personality s) (scores s) v
    (hidden s).

Definition set_hidden (v : bool) (s : State) : State :=
  mkState (isObserving s) (startTime s) (duration s) (timeRemaining s)
    (pausedTime s) (hiddenTime s) (metrics s) (personality s) (scores s)
    (themeApplied s) v.

Definition set_state (v : State) (a : App) : App :=
  mkApp v (lastMouse a) (idleStart a) (isComposing a) (isDestroyed a)
    (countdownTimer a) (idleTimer a).

Definition set_lastMouse (v : LastMouse) (a : App) : App :=
  mkApp (state a) v (idleStart a) (isComposing a) (isDestroyed a)
    (countdownTimer a) (idleTimer a).

Definition set_idleStart (v : option Q) (a : App) : App :=
  mkApp (state a) (lastMouse a) v (isComposing a) (isDestroyed a)
    (countdownTimer a) (idleTimer a).

Definition set_isComposing (v : bool) (a : App) : App :=
  mkApp (state a) (lastMouse a) (idleStart a) v (isDestroyed a)
    (countdownTimer a) (idleTimer a).

Definition set_countdownTimer (v : bool) (a : App) : App :=
  mkApp (state a) (lastMouse a) (idleStart a) (isComposing a)
    (isDestroyed a) v (idleTimer a).

Definition set_idleTimer (v : bool) (a : App) : App :=
  mkApp (state a) (lastMouse a) (idleStart a) (isComposing a)
    (isDestroyed a) (countdownTimer a) v.

Definition set_isDestroyed (v : bool) (a : App) : App :=
  mkApp (state a) (lastMouse a) (idleStart a) (isComposing a) v
    (countdownTimer a) (idleTimer a).

(** [this.state.metrics.f = v] and [this.state.f = v] on the instance. *)
Definition upd_metrics (f : Metrics -> Metrics) (a : App) : App :=
  set_state (set_metrics (f (metrics (state a))) (state a)) a.

Definition upd_state (f : State -> State) (a : App) : App :=
  set_state (f (state a)) a.

(** ** The class [AdaptiveMirror] of [main.js] *)

Module AdaptiveMirror.

(** *** Classifier ([calculateResults], [normalizeScore]) *)

(** [Math.max(1, Math.min(30, actualDuration || 30))], where
    [actualDuration] is
    [((m.lastActivityTime || performance.now())
      - (m.firstActivityTime || this.state.startTime)) / 1000]. *)
Definition actualDuration (now : Q) (s : State) : Q :=
  let m := metrics s in
  (or_else (lastActivityTime m) now
   - (if truthy (firstActivityTime m)
      then to_num (firstActivityTime m)
      else to_num (startTime s))) / 1000.

Definition durationSec (now : Q) (s : State) : Q :=
  Qmax2 1 (Qmin2 30 (or_else (actualDuration now s) 30)).

(** The derived rates, the local constants of [calculateResults]. *)
Record Rates : Type := mkRates {
  avgVelocity : Q;
  clickRate : Q;
  scrollRate : Q;
  activityDensity : Q;
  deletionRate : Q;
  avgIdleGap : Q
}.

Definition rates (dsec : Q) (m : Metrics) : Rates :=
  {| avgVelocity :=
       if (0 <? velocityCount m)%N
       then velocitySum m / NQ (velocityCount m) else 0;
     clickRate := NQ (clickCount m) / dsec;
     scrollRate := NQ (scrollCount m) / dsec;
     activityDensity :=
       NQ (clickCount m + scrollCount m + keystrokes m) / dsec;
     deletionRate :=
       if (0 <? keystrokes m)%N
       then NQ (backspaces m) / NQ (keystrokes m) else 0;
     avgIdleGap :=
       if (0 <? clickCount m)%N
       then idleTime m / NQ (clickCount m) else 0 |}.

(** [if (c) scores.X += p]. *)
Definition pts (c : bool) (p : Z) : Z := if c then p else 0%Z.

(** The object [scores] after the thirteen rules, as its entries in
    insertion order. *)
Definition archetypeScores (r : Rates) (m : Metrics)
  : list (Archetype * Z) :=
  [ (Impulsive,
      (pts (Qgtb (avgVelocity r) (12 # 10) || Qgtb (clickRate r) (4 # 10)) 20
       + pts (Qgtb (maxVelocity m) 3) 15
       + pts (40 <? jitterCount m)%N 15)%Z);
    (Analytical,
      (pts (Qltb (avgVelocity r) (5 # 10) && Qgtb (avgIdleGap r) 2000) 25
       + pts (Qgtb (idleTime m) 10000) 15
       + pts ((50 <? keystrokes m)%N && Qltb (deletionRate r) (1 # 10)) 10)%Z);
    (Perfectionist,
      (pts (Qgtb (deletionRate r) (15 # 100)) 25
       + pts (3 <? backspaces m)%N 15
       + pts (Qltb (avgVelocity r) (8 # 10) && (jitterCount m <? 20)%N) 10)%Z);
    (Observer,
      (pts (Qltb (mouseDistance m) 600 && (clickCount m <? 3)%N) 30
       + pts ((keystrokes m <? 5)%N && (scrollCount m <? 5)%N) 20)%Z);
    (Restless,
      (pts (Qgtb (activityDensity r) (8 # 10)) 20
       + pts (30 <? directionChanges m)%N 15
       + pts (Qgtb (scrollRate r) (5 # 10)) 15)%Z) ].

(** [entries.sort((a, b) => b[1] - a[1])]: a stable sort, by score,
    highest first. *)
Fixpoint insert_desc (x : Archetype * Z) (l : list (Archetype * Z))
  : list (Archetype * Z) :=
  match l with
  | [] => [x]
  | y :: l' =>
      if (snd x <? snd y)%Z then y :: insert_desc x l' else x :: y :: l'
  end.

Definition sort_desc (l : list (Archetype * Z)) : list (Archetype * Z) :=
  fold_right insert_desc [] l.

(** The zero-score branch. *)
Definition fallbackDominant (m : Metrics) : Archetype :=
  if Qgtb (mouseDistance m) 2000 then Restless
  else if (0 <? backspaces m)%N then Perfectionist
  else if (5 <? clickCount m)%N then Impulsive
  else Observer.

Definition dominant (r : Rates) (m : Metrics) : Archetype :=
  match sort_desc (archetypeScores r m) with
  | (a0, s0) :: rest =>
      if (0 <? s0)%Z then
        match rest with
        | (a1, s1) :: _ =>
            if (s0 =? s1)%Z then
              if Archetype_eqb a1 Impulsive && Qgtb (avgVelocity r) 1
              then Impulsive
              else if Archetype_eqb a1 Analytical && Qgtb (avgIdleGap r) 2000
              then Analytical
              else a0
            else a0
        | [] => a0
        end
      else fallbackDominant m
  | [] => Observer
  end.

(** [entries[0][1]], the top score. *)
Definition topScore (r : Rates) (m : Metrics) : Z :=
  match sort_desc (archetypeScores r m) with
  | (_, s0) :: _ => s0
  | [] => 0%Z
  end.

Definition safeNum (val def : jsnum) : jsnum :=
  if isFinite val && negb (isNaN val) then val else def.

Definition normalizeScore (val center : jsnum) : jsnum :=
  Math_max (Fin 5) (Math_min (Fin 95) (Math_round val)).

Definition controlScore (r : Rates) : Q :=
  let clickScrollSum := clickRate r + scrollRate r in
  if Qgtb clickScrollSum 0
  then (clickRate r / clickScrollSum) * 100
  else 50.

Definition subScores (r : Rates) : Scores :=
  let focusScore :=
    safeNum (Fin (avgVelocity r * 20 + activityDensity r * 10)) (Fin 0) in
  let hesitationScore :=
    safeNum (Fin (deletionRate r * 50 + avgIdleGap r / 100)) (Fin 0) in
  let energyScore :=
    safeNum (Math_min (Fin 100) (Fin (activityDensity r * 10))) (Fin 0) in
  let sc :=
    {| focus := normalizeScore focusScore (Fin 50);
       hesitation := normalizeScore hesitationScore (Fin 50);
       controlBias := Math_round (Fin (controlScore r));
       energy := normalizeScore energyScore (Fin 50) |} in
  mkScores (focus sc) (hesitation sc)
    (Math_max (Fin 0) (Math_min (Fin 100) (controlBias sc)))
    (energy sc).

(** What [calculateResults] computes from the state and the clock. *)
Definition classify (now : Q) (s : State) : Archetype * Scores :=
  let m := metrics s in
  let r := rates (durationSec now s) m in
  (dominant r m, subScores r).

Definition calculateResults (now : Q) (s : State) : State :=
  let '(p, sc) := classify now s in
  set_scores (Some sc) (set_personality (Some p) s).


(** *** Events *)

Record MouseEvent : Type := mkMouseEvent {
  clientX : Q;
  clientY : Q;
  timeStamp : Q
}.

Record WheelEvent : Type := mkWheelEvent {
  deltaY : jsnum
}.

(** [onSoundToggle]: [e.target?.closest('#sound-toggle')] is truthy. *)
Record ClickEvent : Type := mkClickEvent {
  onSoundToggle : bool
}.

Record KeyEvent : Type := mkKeyEvent {
  key : string;
  ctrlKey : bool;
  metaKey : bool;
  altKey : bool;
  ev_isComposing : bool
}.

(** *** Session controller *)

Definition newMetrics (now : Q) : Metrics :=
  {| mouseDistance := 0; velocitySum := 0; velocityCount := 0;
     maxVelocity := 0; jitterCount := 0; scrollCount := 0;
     clickCount := 0; keystrokes := 0; backspaces := 0; idleTime := 0;
     lastActivityTime := now; firstActivityTime := None;
     directionChanges := 0; maxScrollVelocity := 0 |}.

Definition newLastMouse : LastMouse :=
  {| lm_x := 0; lm_y := 0; lm_time := 0; lm_vx := 0; lm_vy := 0 |}.

(** The instance as the constructor leaves it. *)
Definition initialApp : App :=
  {| state :=
       {| isObserving := false; startTime := None; duration := 30000;
          timeRemaining := 30; pausedTime := 0; hiddenTime := 0;
          metrics := newMetrics 0;
          personality := None; scores := None; themeApplied := false;
          hidden := false |};
     lastMouse := newLastMouse;
     idleStart := None;
     isComposing := false;
     isDestroyed := false;
     countdownTimer := false;
     idleTimer := false |}.

Definition resetMetrics (now : Q) (a : App) : App :=
  set_isComposing false
    (set_idleStart None
       (set_lastMouse newLastMouse
          (upd_state (set_metrics (newMetrics now)) a))).

Definition stopObservation (a : App) : App :=
  set_idleTimer false
    (set_countdownTimer false (upd_state (set_isObserving false) a)).

Definition fallbackScores : Scores :=
  {| focus := Fin 50; hesitation := Fin 50;
     controlBias := Fin 50; energy := Fin 50 |}.

Definition JsError : Type := string.

(** [completeObservation], for any classification step: the step either
    returns the state it has written or throws.  [calculateResults]
    writes nothing but [personality] and [scores], both of which the
    [catch] block overwrites, so a throw need not carry a state. *)
Definition completeObservationWith
  (calc : Q -> State -> JsError + State) (now : Q) (a : App) : App :=
  let a1 := stopObservation a in
  match calc now (state a1) with
  | inr s' => set_state s' a1
  | inl _ =>
      upd_state
        (fun s => set_scores (Some fallbackScores)
                    (set_personality (Some Observer) s)) a1
  end.

Definition completeObservation (now : Q) (a : App) : App :=
  completeObservationWith (fun t s => inr (calculateResults t s)) now a.

(** The local constants [elapsed] and [remaining] of the countdown. *)
Definition elapsed (now : Q) (s : State) : Q :=
  now - to_num (startTime s).

Definition remaining (now : Q) (s : State) : Z :=
  Z.max 0 (Qceiling ((duration s - elapsed now s) / 1000)).

(** The closure [update] of [startTimer], one tick of the countdown. *)
Definition update (now : Q) (a : App) : App :=
  if negb (isObserving (state a)) || hidden (state a) || isDestroyed a
  then a
  else
    let r := remaining now (state a) in
    let a1 :=
      if negb (r =? timeRemaining (state a))%Z
      then upd_state (set_timeRemaining r) a else a in
    if Qgeb (elapsed now (state a)) (duration (state a))
    then completeObservation now a1
    else a1.

Definition startTimer (now : Q) (a : App) : App :=
  set_countdownTimer true (update now (set_countdownTimer false a)).

Definition startIdleTracker (a : App) : App :=
  set_idleTimer true a.

Definition beginObservation (now now' : Q) (a : App) : App :=
  if isObserving (state a) then a
  else
    let a1 :=
      upd_state
        (fun s => set_pausedTime 0
                    (set_timeRemaining 30
                       (set_startTime (Some now)
                          (set_isObserving true s)))) a in
    startIdleTracker (startTimer now' (resetMetrics now' a1)).

Definition reset (a : App) : App :=
  upd_state
    (fun s => set_scores None
                (set_themeApplied false (set_personality None s)))
    (stopObservation a).

(** [document.hidden] is the argument [docHidden]. *)
Definition handleVisibilityChange (docHidden : bool) (now : Q) (a : App)
  : App :=
  if negb (isObserving (state a)) then a
  else if docHidden then
    set_idleTimer false
      (set_countdownTimer false
         (upd_state (fun s => set_hiddenTime now (set_hidden true s)) a))
  else
    let hiddenDuration := now - hiddenTime (state a) in
    let a1 :=
      upd_state
        (fun s => set_hidden false
                    (set_startTime
                       (Some (to_num (startTime s) + hiddenDuration))
                       (set_hidden true s))) a in
    if isObserving (state a1)
    then startIdleTracker (startTimer now a1)
    else a1.

(** *** Idle detector *)

Definition checkIdle (now : Q) (a : App) : App :=
  if negb (isObserving (state a)) || hidden (state a) || isDestroyed a
  then a
  else
    let timeSinceActivity := now - lastActivityTime (metrics (state a)) in
    if truthy (idleStart a) && Qltb timeSinceActivity 100 then
      let idleDuration := now - to_num (idleStart a) in
      let a1 :=
        if Qgtb idleDuration 500
        then upd_metrics
               (fun m => set_idleTime (idleTime m + idleDuration) m) a
        else a in
      set_idleStart None a1
    else if negb (truthy (idleStart a)) && Qgtb timeSinceActivity 400 then
      set_idleStart (Some now) a
    else a.

(** *** Metrics accumulator: the recorders *)

Definition incr (n : N) : N := (n + 1)%N.

Section PointerSamples.

(** [Math.sqrt], which has no counterpart on [Q]. *)
Variable Math_sqrt : Q -> Q.

(** The body of [handleMouseMove] under [if (distance > 0)]: the updates
    of [this.state.metrics]. *)
Definition sampleMetrics (lm : LastMouse) (dt distance vx vy : Q)
  (m : Metrics) : Metrics :=
  let velocity := Math_sqrt (vx * vx + vy * vy) in
  let m1 := set_mouseDistance (mouseDistance m + distance) m in
  let m2 := set_velocitySum (velocitySum m1 + velocity) m1 in
  let m3 := set_velocityCount (incr (velocityCount m2)) m2 in
  let m4 :=
    if isFinite (Fin velocity) && Qgtb velocity (maxVelocity m3)
    then set_maxVelocity velocity m3 else m3 in
  let m5 :=
    if Qltb distance 5 && Qltb dt 50
    then set_jitterCount (incr (jitterCount m4)) m4 else m4 in
  if negb (Qeq_bool (lm_vx lm) 0) || negb (Qeq_bool (lm_vy lm) 0) then
    let dotProduct := vx * lm_vx lm + vy * lm_vy lm in
    if Qltb dotProduct 0 && Qgtb velocity (3 # 10)
    then set_directionChanges (incr (directionChanges m5)) m5 else m5
  else m5.

Definition handleMouseMove (e : MouseEvent) (clock : Q) (a : App) : App :=
  if negb (isObserving (state a)) || hidden (state a) || isDestroyed a
  then a
  else
    let now := or_else (timeStamp e) clock in
    let x := clientX e in
    let y := clientY e in
    let a1 :=
      if negb (truthy (firstActivityTime (metrics (state a))))
      then upd_metrics (set_firstActivityTime (Some now)) a else a in
    let lm := lastMouse a1 in
    let a2 :=
      if truthyQ (lm_time lm) then
        let dt := now - lm_time lm in
        if Qgtb dt 16 then
          let dx := x - lm_x lm in
          let dy := y - lm_y lm in
          let distance := Math_sqrt (dx * dx + dy * dy) in
          if Qgtb distance 0 then
            let vx := dx / dt in
            let vy := dy / dt in
            set_lastMouse
              (mkLastMouse (lm_x lm) (lm_y lm) (lm_time lm) vx vy)
              (upd_metrics (sampleMetrics lm dt distance vx vy) a1)
          else a1
        else a1
      else a1 in
    let a3 :=
      set_lastMouse
        (mkLastMouse x y now (lm_vx (lastMouse a2)) (lm_vy (lastMouse a2)))
        a2 in
    upd_metrics (set_lastActivityTime now) a3.

End PointerSamples.

Definition handleWheel (e : WheelEvent) (a : App) : App :=
  if negb (isObserving (state a)) || hidden (state a) || isDestroyed a
  then a
  else
    match Math_abs (deltaY e) with
    | Fin velocity =>
        if Qgtb velocity (maxScrollVelocity (metrics (state a)))
        then upd_metrics (set_maxScrollVelocity velocity) a
        else a
    | _ => a
    end.

Definition handleScroll (now : Q) (a : App) : App :=
  if negb (isObserving (state a)) || hidden (state a) || isDestroyed a
  then a
  else
    upd_metrics
      (fun m => set_lastActivityTime now
                  (set_scrollCount (incr (scrollCount m)) m)) a.

Definition handleClick (e : ClickEvent) (now : Q) (a : App) : App :=
  if negb (isObserving (state a)) || hidden (state a) || isDestroyed a
  then a
  else if onSoundToggle e then a
  else
    upd_metrics
      (fun m => set_lastActivityTime now
                  (set_clickCount (incr (clickCount m)) m)) a.

(** [e.key.length === 1 && !e.ctrlKey && !e.metaKey && !e.altKey].
    [key] is taken to be ASCII, where the number of bytes is the
    number of UTF-16 code units that [length] counts. *)
Definition printable (e : KeyEvent) : bool :=
  (String.length (key e) =? 1)%nat
  && negb (ctrlKey e) && negb (metaKey e) && negb (altKey e).

(** The class body declares [handleKeyDown] twice.  This is the first
    declaration (line 690), the keystroke recorder. *)
Definition handleKeyDown_recorder (e : KeyEvent) (now : Q) (a : App)
  : App :=
  if negb (isObserving (state a)) || isDestroyed a then a
  else if isComposing a || String.eqb (key e) "Dead" || ev_isComposing e
  then a
  else
    let a1 :=
      if String.eqb (key e) "Backspace"
      then upd_metrics (fun m => set_backspaces (incr (backspaces m)) m) a
      else if printable e
      then upd_metrics (fun m => set_keystrokes (incr (keystrokes m)) m) a
      else a in
    upd_metrics (set_lastActivityTime now) a1.

(** The second declaration (line 1280), the keyboard shortcuts;
    [preventDefault] on the space key leaves the instance alone. *)
Definition handleKeyDown_shortcuts (e : KeyEvent) (now : Q) (a : App)
  : App :=
  if String.eqb (key e) "Escape" && isObserving (state a)
  then reset a else a.

Definition KeyHandler : Type := KeyEvent -> Q -> App -> App.

(** The method definitions of the class body that take a keyboard
    event, in source order. *)
Definition keyMethods : list (string * KeyHandler) :=
  [ ("handleKeyDown"%string, handleKeyDown_recorder);
    ("handleKeyDown"%string, handleKeyDown_shortcuts) ].

(** A class body defines its methods on the prototype one after the
    other, so a later definition of a name replaces an earlier one. *)
Definition definedMethod (name : string)
  (body : list (string * KeyHandler)) : option KeyHandler :=
  fold_left
    (fun found d => if String.eqb (fst d) name then Some (snd d) else found)
    body None.

(** [this.handleKeyDown]. *)
Definition handleKeyDown : KeyHandler :=
  match definedMethod "handleKeyDown" keyMethods with
  | Some f => f
  | None => fun _ _ a => a
  end.

Definition handleBeforeInput (now : Q) (a : App) : App :=
  if negb (isObserving (state a)) then a
  else upd_metrics (set_lastActivityTime now) a.

(** *** Event wiring ([bindEvents] and the constructor) *)

(** [throttle(fn, limit)]: calls are dropped while [inThrottle] holds.
    The timeouts that clear the flags after [limit] ms are
    [releaseMouse], [releaseScroll] and [releaseWheel]. *)
Definition throttle (fn : App -> App) (inThrottle : bool) (a : App)
  : bool * App :=
  if inThrottle then (inThrottle, a) else (true, fn a).

(** The instance together with the [inThrottle] flag of each throttled
    handler. *)
Record Page : Type := mkPage {
  app : App;
  mouseThrottle : bool;
  scrollThrottle : bool;
  wheelThrottle : bool
}.

Definition releaseMouse (pg : Page) : Page :=
  mkPage (app pg) false (scrollThrottle pg) (wheelThrottle pg).

Definition releaseScroll (pg : Page) : Page :=
  mkPage (app pg) (mouseThrottle pg) false (wheelThrottle pg).

Definition releaseWheel (pg : Page) : Page :=
  mkPage (app pg) (mouseThrottle pg) (scrollThrottle pg) false.

(** The events of the input source that reach a recorder.
    [onTypingField]: the key was pressed in the typing field, whose own
    listener runs before the one on [document]. *)
Inductive InputEvent : Type :=
| PointerMove (e : MouseEvent)
| ScrollEv
| WheelEv (e : WheelEvent)
| ClickEv (e : ClickEvent)
| KeyDownEv (onTypingField : bool) (e : KeyEvent).

Definition dispatch (Math_sqrt : Q -> Q) (ev : InputEvent) (now : Q)
  (pg : Page) : Page :=
  match ev with
  | PointerMove e =>
      let '(t, a) :=
        throttle (handleMouseMove Math_sqrt e now) (mouseThrottle pg)
          (app pg) in
      mkPage a t (scrollThrottle pg) (wheelThrottle pg)
  | ScrollEv =>
      let '(t, a) := throttle (handleScroll now) (scrollThrottle pg)
                       (app pg) in
      mkPage a (mouseThrottle pg) t (wheelThrottle pg)
  | WheelEv e =>
      let '(t, a) := throttle (handleWheel e) (wheelThrottle pg) (app pg) in
      mkPage a (mouseThrottle pg) (scrollThrottle pg) t
  | ClickEv e =>
      mkPage (handleClick e now (app pg)) (mouseThrottle pg)
        (scrollThrottle pg) (wheelThrottle pg)
  | KeyDownEv onTypingField e =>
      let a1 :=
        if onTypingField then handleKeyDown e now (app pg) else app pg in
      mkPage (handleKeyDown e now a1) (mouseThrottle pg)
        (scrollThrottle pg) (wheelThrottle pg)
  end.

(** The recorder operations as the class body declares them, called
    directly.  [RecordKeydown] is the first declaration of
    [handleKeyDown]; the [keydown] listeners reach the second one, see
    [dispatch]. *)
Inductive RecorderOp : Type :=
| RecordPointerSample (e : MouseEvent)
| RecordScroll
| RecordWheel (e : WheelEvent)
| RecordClick (e : ClickEvent)
| RecordKeydown (e : KeyEvent).

Definition recorder (Math_sqrt : Q -> Q) (op : RecorderOp) (now : Q)
  (a : App) : App :=
  match op with
  | RecordPointerSample e => handleMouseMove Math_sqrt e now a
  | RecordScroll => handleScroll now a
  | RecordWheel e => handleWheel e a
  | RecordClick e => handleClick e now a
  | RecordKeydown e => handleKeyDown_recorder e now a
  end.

(** The session states of the specification, read off the instance. *)
Inductive SessionState : Type :=
| Idle
| Observing
| Paused
| Completed.

Definition sessionState (a : App) : SessionState :=
  if isObserving (state a) then
    if hidden (state a) then Paused else Observing
  else
    match personality (state a) with
    | Some _ => Completed
    | None => Idle
    end.

(** *** Teardown and touch input *)

(** [destroy]: the listeners, timeouts and object URLs it also releases
    are outside the instance kept here. *)
Definition destroy (a : App) : App :=
  if isDestroyed a then a
  else stopObservation (set_isDestroyed true a).

(** [touches]: the client coordinates of [e.touches], first touch
    first. *)
Record TouchEvent : Type := mkTouchEvent {
  touches : list (Q * Q);
  touchTimeStamp : Q
}.

(** [handleTouch] hands the first touch to [this.handleMouseMove], the
    throttled pointer recorder. *)
Definition handleTouch (Math_sqrt : Q -> Q) (e : TouchEvent) (now : Q)
  (pg : Page) : Page :=
  let a := app pg in
  if negb (isObserving (state a)) || hidden (state a) || isDestroyed a
  then pg
  else
    match touches e with
    | [] => pg
    | (x, y) :: _ =>
        dispatch Math_sqrt
          (PointerMove (mkMouseEvent x y (or_else (touchTimeStamp e) now)))
          now pg
    end.

Definition endTouch (a : App) : App :=
  set_lastMouse
    (mkLastMouse (lm_x (lastMouse a)) (lm_y (lastMouse a)) 0 0 0) a.

(** *** [safeRandom] *)

(** [crypto]: the word [crypto.getRandomValues] wrote into the
    [Uint32Array], when [window.crypto] is there; [mathRandom]: what
    [Math.random()] returns. *)
Definition safeRandom (crypto : option N) (mathRandom : Q) : Q :=
  match crypto with
  | Some word => NQ (word mod 2 ^ 32) / (NQ 4294967295 + 1)
  | None => mathRandom
  end.

(** *** Ambient particles *)

Record Particle : Type := mkParticle {
  p_x : Q;
  p_y : Q;
  p_vx : Q;
  p_vy : Q;
  p_radius : Q;
  p_opacity : Q;
  p_phase : Q;
  p_originalVx : Q;
  p_originalVy : Q
}.

(** The local constant [count] of [createParticles]. *)
Definition particleCount (innerWidth innerHeight : Q) : Z :=
  let area := innerWidth * innerHeight in
  Z.min 25 (Z.max 5 (Qfloor (area / 50000))).

Section Particles.

(** [Math.PI], and the successive results of [Math.random()]. *)
Variable Math_PI : Q.
Variable random : nat -> Q.

(** The loop of [createParticles] from index [i] on, [n] particles to
    go; each particle draws seven random numbers.  The pass that stores
    the original velocities is folded in. *)
Fixpoint pushParticles (innerWidth innerHeight : Q) (i n : nat)
  : list Particle :=
  match n with
  | O => []
  | S n' =>
      let k := (7 * i)%nat in
      let vx := (random (k + 2)%nat - (1 # 2)) * (3 # 10) in
      let vy := (random (k + 3)%nat - (1 # 2)) * (3 # 10) in
      {| p_x := random k * innerWidth;
         p_y := random (k + 1)%nat * innerHeight;
         p_vx := vx;
         p_vy := vy;
         p_radius := random (k + 4)%nat * 2 + (1 # 2);
         p_opacity := random (k + 5)%nat * (1 # 10) + (2 # 100);
         p_phase := random (k + 6)%nat * Math_PI * 2;
         p_originalVx := vx;
         p_originalVy := vy |}
      :: pushParticles innerWidth innerHeight (S i) n'
  end.

(** [hasCanvas]: [this.canvas] is set. *)
Definition createParticles (reducedMotion hasCanvas : bool)
  (innerWidth innerHeight : Q) : list Particle :=
  if reducedMotion || negb hasCanvas then []
  else
    pushParticles innerWidth innerHeight 0
      (Z.to_nat (particleCount innerWidth innerHeight)).

End Particles.

(** [Math.max(-2, Math.min(2, v * 1.5))]. *)
Definition boost (v : Q) : Q := Qmax2 (-2) (Qmin2 2 (v * (15 # 10))).

Definition boostParticle (p : Particle) : Particle :=
  mkParticle (p_x p) (p_y p) (boost (p_vx p)) (boost (p_vy p))
    (p_radius p) (p_opacity p) (p_phase p) (p_originalVx p)
    (p_originalVy p).

(** [applyTheme] on the instance and [this.particles]; the class list
    of [document.body] and the glitch timer are not kept. *)
Definition applyTheme (reducedMotion : bool) (ps : list Particle) (a : App)
  : App * list Particle :=
  match personality (state a) with
  | None => (a, ps)
  | Some p =>
      if themeApplied (state a) || isDestroyed a then (a, ps)
      else
        let a1 := upd_state (set_themeApplied true) a in
        if reducedMotion then (a1, ps)
        else if Archetype_eqb p Impulsive then (a1, map boostParticle ps)
        else (a1, ps)
  end.

Section ParticleMotion.

Variable Math_sin : Q -> Q.
Variable Math_cos : Q -> Q.

(** One axis of the bounce: position and velocity after the test
    against the padding of 10. *)
Definition bounce (pos vel limit : Q) : Q * Q :=
  let padding := 10 in
  if Qltb pos padding then (padding, vel * -1)
  else if Qgtb pos (limit - padding) then (limit - padding, vel * -1)
  else (pos, vel).

Definition updateParticle (reducedMotion : bool)
  (who : option Archetype) (innerWidth innerHeight : Q)
  (p : Particle) (time : Q) (index : nat) : Particle :=
  if reducedMotion then p
  else
    let speed :=
      match who with
      | Some Impulsive => 15 # 10
      | Some Restless => 12 # 10
      | Some Analytical => 5 # 10
      | _ => 1
      end in
    let x := p_x p + p_vx p * speed in
    let y := p_y p + p_vy p * speed in
    let idx := inject_Z (Z.of_nat index) in
    let '(vx, vy) :=
      match who with
      | Some Restless =>
          ((p_vx p + Math_sin (time + idx) * (1 # 100)) * (99 # 100),
           (p_vy p + Math_cos (time * (15 # 10) + idx) * (1 # 100))
           * (99 # 100))
      | _ => (p_vx p, p_vy p)
      end in
    let '(x', vx') := bounce x vx innerWidth in
    let '(y', vy') := bounce y vy innerHeight in
    mkParticle x' y' vx' vy' (p_radius p) (p_opacity p) (p_phase p)
      (p_originalVx p) (p_originalVy p).

End ParticleMotion.

End AdaptiveMirror.

(** ** The keystroke recorder of [part_000] *)

Module Part000.

Import AdaptiveMirror.

(** [handleTyping], bound to [keydown] on the typing field. *)
Definition handleTyping (e : KeyEvent) (now : Q) (a : App) : App :=
  if negb (isObserving (state a)) then a
  else if ev_isComposing e || String.eqb (key e) "Dead" then a
  else
    let a1 :=
      if String.eqb (key e) "Backspace"
      then upd_metrics (fun m => set_backspaces (incr (backspaces m)) m) a
      else if printable e
      then upd_metrics (fun m => set_keystrokes (incr (keystrokes m)) m) a
      else a in
    upd_metrics (set_lastActivityTime now) a1.

(** [startTimer] of [part_000] sets the interval and computes nothing
    at once. *)
Definition startTimer (a : App) : App := set_countdownTimer true a.

Definition handleVisibilityChange (docHidden : bool) (now : Q) (a : App)
  : App :=
  if docHidden then
    let a1 := upd_state (set_hidden true) a in
    if isObserving (state a1)
    then set_countdownTimer false (upd_state (set_pausedTime now) a1)
    else a1
  else
    let a1 := upd_state (set_hidden false) a in
    if isObserving (state a1) && truthyQ (pausedTime (state a1)) then
      let pauseDuration := now - pausedTime (state a1) in
      startTimer
        (upd_state
           (fun s => set_startTime
                       (Some (to_num (startTime s) + pauseDuration)) s) a1)
    else a1.

(** The pass over [this.state.scores] that puts 50 in place of a score
    that is [NaN] or not finite. *)
Definition validScore (v : jsnum) : jsnum :=
  if isNaN v || negb (isFinite v) then Fin 50 else v.

(** The sub-scores of [calculateResults] in [part_000]. *)
Definition subScores (r : Rates) : Scores :=
  {| focus :=
       validScore
         (normalizeScore
            (Fin (avgVelocity r * 20 + activityDensity r * 10)) (Fin 50));
     hesitation :=
       validScore
         (normalizeScore
            (Fin (deletionRate r * 50 + avgIdleGap r / 50)) (Fin 50));
     controlBias :=
       validScore
         (normalizeScore
            (Fin (if Qgtb (clickRate r + scrollRate r) 0
                  then (clickRate r / (clickRate r + scrollRate r)) * 100
                  else 50)) (Fin 50));
     energy :=
       validScore
         (normalizeScore
            (Math_min (Fin 100) (Fin (activityDensity r * 10))) (Fin 50)) |}.

(** [calculateResults] of [part_000]: [durationSec] is the constant 30;
    the rule table and the choice of the dominant archetype are those
    of [main.js] (the extra [!isNaN(m.mouseDistance)] holds of every
    finite number). *)
Definition classify (s : State) : Archetype * Scores :=
  let m := metrics s in
  let r := rates 30 m in
  (dominant r m, subScores r).

Definition calculateResults (s : State) : State :=
  let '(p, sc) := classify s in
  set_scores (Some sc) (set_personality (Some p) s).


End Part000.

(** ** The session clock on binary64 numbers *)

Module Doubles.

Import PrimFloat.
Local Open Scope float_scope.

(** [Math.floor] of a double [0 <= y < 2^52]: adding [2^52] rounds [y]
    to a nearest integer, which is one too many when it lies above
    [y]. *)
Definition floorPos (y : float) : float :=
  let t := (y + 0x1p52) - 0x1p52 in
  if y <? t then t - 1 else t.

(** [Math.ceil].  A double of magnitude [2^52] or more is an integer;
    [NaN] and the zeros are returned as they are. *)
Definition Math_ceil (x : float) : float :=
  if abs x <? 0x1p52 then
    if x =? 0 then x
    else if x <? 0 then - floorPos (- x)
    else
      let t := (x + 0x1p52) - 0x1p52 in
      if t <? x then t + 1 else t
  else x.

(** [Math.max] of two numbers: [NaN] is contagious, [+0] is above
    [-0]. *)
Definition Math_max (x y : float) : float :=
  if is_nan x || is_nan y then nan
  else if x <? y then y
  else if y <? x then x
  else if x =? 0 then x + y
  else x.

(** The fields of [this.state] that the clock reads and writes, of an
    instance that is not destroyed. *)
Record Clock : Type := mkClock {
  isObserving : bool;
  hidden : bool;
  startTime : float;
  hiddenTime : float;
  duration : float;
  timeRemaining : float
}.

Definition elapsed (now : float) (c : Clock) : float :=
  now - startTime c.

Definition remaining (now : float) (c : Clock) : float :=
  Math_max 0 (Math_ceil ((duration c - elapsed now c) / 1000)).

(** The closure [update] of [startTimer]; of [completeObservation] only
    the end of the observation is kept. *)
Definition update (now : float) (c : Clock) : Clock :=
  if negb (isObserving c) || hidden c then c
  else
    let r := remaining now c in
    let c1 :=
      if negb (r =? timeRemaining c)
      then mkClock (isObserving c) (hidden c) (startTime c) (hiddenTime c)
             (duration c) r
      else c in
    if duration c <=? elapsed now c
    then mkClock false (hidden c1) (startTime c1) (hiddenTime c1)
           (duration c1) (timeRemaining c1)
    else c1.

Definition handleVisibilityChange (docHidden : bool) (now : float)
  (c : Clock) : Clock :=
  if negb (isObserving c) then c
  else if docHidden then
    mkClock (isObserving c) true (startTime c) now (duration c)
      (timeRemaining c)
  else
    let hiddenDuration := now - hiddenTime c in
    let c1 :=
      mkClock (isObserving c) false (startTime c + hiddenDuration)
        (hiddenTime c) (duration c) (timeRemaining c) in
    if isObserving c1 then update now c1 else c1.

(** [v / 10], for clock readings given in tenths of a millisecond. *)
Definition tenths (v : float) : float := v / 10.

(** A session begun at clock reading 24695.3, six seconds before the
    tab is hidden at 30695.3; the tab is shown again at 64718.6. *)
Definition fractionalSession : Clock :=
  mkClock true false (tenths 246953) 0 30000 24.

Definition hiddenAt : float := tenths 306953.

Definition shownAt : float := tenths 647186.

End Doubles.

Import AdaptiveMirror.

(** ** Scenarios *)

(** A session with final metrics [m], as [completeObservation] hands it
    to the classifier: observation stopped, no result yet. *)
Definition sessionWith (m : Metrics) (start : option Q) : State :=
  {| isObserving := false; startTime := start; duration := 30000;
     timeRemaining := 0; pausedTime := 0; hiddenTime := 0;
     metrics := m; personality := None; scores := None;
     themeApplied := false; hidden := false |}.

(** Scenario C: every metric [0], [mouseDistance = 2500]. *)
Definition scenarioC : Metrics :=
  set_mouseDistance 2500 (newMetrics 0).

(** [clamp(v, lo, hi)] of the specification. *)
Definition clamp (v lo hi : Q) : Q := Qmax2 lo (Qmin2 hi v).

(** A session begun at clock reading [t]. *)
Definition observingAt (t : Q) : App := beginObservation t t initialApp.

Definition backspaceKey : KeyEvent :=
  {| key := "Backspace"; ctrlKey := false; metaKey := false;
     altKey := false; ev_isComposing := false |}.

Definition letterKey : KeyEvent :=
  {| key := "a"; ctrlKey := false; metaKey := false;
     altKey := false; ev_isComposing := false |}.

Definition freshPage (a : App) : Page :=
  {| app := a; mouseThrottle := false; scrollThrottle := false;
     wheelThrottle := false |}.

(** The idle detector under its 100ms cadence.  Between two polls the
    recorders stamp [lastActivityTime]; [act p] is the stamp the poll
    at time [p] finds, written here by [handleBeforeInput]. *)
Definition pollAfterActivity (act : Q -> Q) (p : Q) (a : App) : App :=
  checkIdle p (handleBeforeInput (act p) a).

Fixpoint runPolls (act : Q -> Q) (p : Q) (n : nat) (a : App) : App :=
  match n with
  | O => a
  | S n' => runPolls act (p + 100) n' (pollAfterActivity act p a)
  end.

(** Nothing is recorded between [t0] and [t0 + gap]; from [t0 + gap]
    on, every poll finds a stamp less than 100ms old. *)
Definition inactivityGap (t0 gap : Q) (act : Q -> Q) : Prop :=
  (forall p, p < t0 + gap -> act p = t0) /\
  (forall p, t0 + gap <= p -> p - 100 < act p /\ act p <= p).

(** One recorded event at [t0], the next at [t0 + gap], then one at
    every poll. *)
Definition gapThenActive (t0 gap : Q) (p : Q) : Q :=
  if Qltb p (t0 + gap) then t0 else p.

(** What holds before the poll at time [p], for a gap after [t0]: the
    session is observed and visible, [idleTime] is still [i0], and an
    idle period, if one is open, was opened more than 400ms after [t0]
    by a poll that fell inside the gap. *)
Definition idleInvariant (t0 gap i0 p : Q) (a : App) : Prop :=
  isObserving (state a) = true /\ hidden (state a) = false /\
  isDestroyed a = false /\
  idleTime (metrics (state a)) = i0 /\
  (idleStart a = None \/
   exists o, idleStart a = Some o /\ t0 + 400 < o /\ p - 100 < t0 + gap).

(** [scores[a]]: the score of archetype [a] among the entries. *)
Fixpoint scoreOf (a : Archetype) (l : list (Archetype * Z)) : Z :=
  match l with
  | [] => 0%Z
  | (b, s) :: l' => if Archetype_eqb a b then s else scoreOf a l'
  end.

(** The entries of score [k], in their order. *)
Definition withScore (k : Z) (l : list (Archetype * Z))
  : list (Archetype * Z) :=
  filter (fun x => (snd x =? k)%Z) l.

(** The recorder operations that set [firstActivityTime]. *)
Definition isPointerSample (op : RecorderOp) : bool :=
  match op with RecordPointerSample _ => true | _ => false end.

(** [Math.sqrt] on the two squares whose roots the example of a
    pointer stroke takes. *)
Definition sqrtOfSquare (q : Q) : Q :=
  if Qeq_bool q 2500 then 50
  else if Qeq_bool q (1 # 4) then 1 # 2
  else 0.

(** Two events that share a throttle. *)
Definition sameThrottle (ev1 ev2 : InputEvent) : bool :=
  match ev1, ev2 with
  | PointerMove _, PointerMove _ => true
  | ScrollEv, ScrollEv => true
  | WheelEv _, WheelEv _ => true
  | _, _ => false
  end.

(** Entry [x] scores at least what entry [y] scores. *)
Definition ge_score (x y : Archetype * Z) : Prop := (snd y <= snd x)%Z.

(** What holds before the poll at time [p], for a gap of more than a
    second after [t0]: no idle period opened yet; or one opened by the
    first poll more than 400ms after [t0]; or that one closed by the
    first poll after the gap, and added to [idleTime]. *)
Definition longGapInvariant (t0 gap i0 p : Q) (a : App) : Prop :=
  isObserving (state a) = true /\ hidden (state a) = false /\
  isDestroyed a = false /\
  ((idleStart a = None /\ idleTime (metrics (state a)) = i0 /\
    p <= t0 + 500) \/
   (exists o, idleStart a = Some o /\ t0 + 400 < o /\ o <= t0 + 500 /\
              o <= p - 100 /\
              idleTime (metrics (state a)) = i0 /\ p - 100 < t0 + gap) \/
   (idleStart a = None /\ t0 + gap <= p - 100 /\
    gap - 500 <= idleTime (metrics (state a)) - i0 /\
    idleTime (metrics (state a)) - i0 < gap - 300)).

(** ** Numbers *)

Lemma Qltb_lt (x y : Q) : Qltb x y = true <-> x < y.
Proof.
  unfold Qltb. rewrite negb_true_iff.
  split; intro H.
  - apply Qnot_le_lt. intro L. apply Qle_bool_iff in L. congruence.
  - destruct (Qle_bool y x) eqn:E; [|reflexivity].
    apply Qle_bool_iff in E. exfalso. apply (Qlt_not_le _ _ H E).
Qed.

Lemma Qltb_ge (x y : Q) : Qltb x y = false <-> y <= x.
Proof.
  unfold Qltb. rewrite negb_false_iff. apply Qle_bool_iff.
Qed.

Lemma Qgtb_gt (x y : Q) : Qgtb x y = true <-> y < x.
Proof. apply Qltb_lt. Qed.

Lemma Qgtb_le (x y : Q) : Qgtb x y = false <-> x <= y.
Proof. apply Qltb_ge. Qed.

Lemma truthyQ_true (q : Q) : truthyQ q = true <-> ~ q == 0.
Proof.
  unfold truthyQ. rewrite negb_true_iff.
  split; intro H.
  - intro E. apply Qeq_bool_iff in E. congruence.
  - destruct (Qeq_bool q 0) eqn:E; [|reflexivity].
    apply Qeq_bool_iff in E. contradiction.
Qed.

Lemma truthyQ_false (q : Q) : truthyQ q = false <-> q == 0.
Proof.
  unfold truthyQ. rewrite negb_false_iff. apply Qeq_bool_iff.
Qed.

Lemma truthyQ_pos (q : Q) : 0 < q -> truthyQ q = true.
Proof. intro H. apply truthyQ_true. intro E. lra. Qed.

Lemma Qmax2_spec (a b : Q) :
  (a <= b /\ Qmax2 a b = b) \/ (b < a /\ Qmax2 a b = a).
Proof.
  unfold Qmax2. destruct (Qle_bool a b) eqn:E.
  - left. split; [apply Qle_bool_iff, E | reflexivity].
  - right. split; [|reflexivity].
    apply Qnot_le_lt. intro L. apply Qle_bool_iff in L. congruence.
Qed.

Lemma Qmin2_spec (a b : Q) :
  (a <= b /\ Qmin2 a b = a) \/ (b < a /\ Qmin2 a b = b).
Proof.
  unfold Qmin2. destruct (Qle_bool a b) eqn:E.
  - left. split; [apply Qle_bool_iff, E | reflexivity].
  - right. split; [|reflexivity].
    apply Qnot_le_lt. intro L. apply Qle_bool_iff in L. congruence.
Qed.

Lemma Qle_bool_inject_Z (x y : Z) :
  (x <= y)%Z -> Qle_bool (inject_Z x) (inject_Z y) = true.
Proof. intro H. apply Qle_bool_iff. rewrite <- Zle_Qle. exact H. Qed.

(** Rounding and then clamping between two integers gives an integer
    between them. *)
Lemma clamp_round_range (lo hi : Z) (q : Q) :
  (lo <= hi)%Z ->
  int_in_range lo hi
    (Math_max (Fin (inject_Z lo))
       (Math_min (Fin (inject_Z hi)) (Math_round (Fin q)))).
Proof.
  intro Hlh. unfold int_in_range. cbn [Math_round Math_min Math_max].
  set (z := Qfloor (q + (1 # 2))).
  destruct (Qle_bool (inject_Z hi) (inject_Z z)) eqn:E1;
    cbn [Math_max].
  - rewrite (Qle_bool_inject_Z lo hi Hlh).
    exists hi. split; [reflexivity | lia].
  - assert (Hz : (z < hi)%Z).
    { apply Z.lt_nge. intro L. rewrite Zle_Qle in L.
      apply Qle_bool_iff in L. congruence. }
    destruct (Qle_bool (inject_Z lo) (inject_Z z)) eqn:E2.
    + exists z. split; [reflexivity|].
      apply Qle_bool_iff in E2. rewrite <- Zle_Qle in E2. lia.
    + exists lo. split; [reflexivity|]. lia.
Qed.

Lemma clamp_inf_range (lo hi : Z) :
  (lo <= hi)%Z ->
  int_in_range lo hi
    (Math_max (Fin (inject_Z lo)) (Math_min (Fin (inject_Z hi)) PosInf)) /\
  int_in_range lo hi
    (Math_max (Fin (inject_Z lo)) (Math_min (Fin (inject_Z hi)) NegInf)).
Proof.
  intro Hlh. unfold int_in_range. cbn [Math_min Math_max]. split.
  - rewrite (Qle_bool_inject_Z lo hi Hlh).
    exists hi. split; [reflexivity | lia].
  - exists lo. split; [reflexivity | lia].
Qed.

(** ** [normalizeScore] *)

Lemma normalizeScore_not_NaN (val center : jsnum) :
  val <> NaN -> int_in_range 5 95 (normalizeScore val center).
Proof.
  intro Hnan. unfold normalizeScore.
  destruct val as [ | | | q].
  - contradiction.
  - apply (proj1 (clamp_inf_range 5 95 ltac:(lia))).
  - apply (proj2 (clamp_inf_range 5 95 ltac:(lia))).
  - apply (clamp_round_range 5 95 q). lia.
Qed.

(** C9, as amended: for every input other than [NaN] (every finite
    value, [+Infinity] and [-Infinity]) [normalizeScore] returns an
    integer of the range 5..95. *)
Theorem normalizeScore_range (val center : jsnum) :
  val <> NaN -> int_in_range 5 95 (normalizeScore val center).
Proof. apply normalizeScore_not_NaN. Qed.

Lemma normalizeScore_range_witness :
  PosInf <> NaN /\ int_in_range 5 95 (normalizeScore PosInf (Fin 50)).
Proof.
  split; [discriminate | apply normalizeScore_range; discriminate].
Defined.

(** C9 as stated fails at [NaN]: [Math.round], [Math.min] and
    [Math.max] all pass [NaN] on. *)
Lemma normalizeScore_NaN :
  normalizeScore NaN (Fin 50) = NaN /\
  ~ int_in_range 5 95 (normalizeScore NaN (Fin 50)).
Proof.
  split; [reflexivity|].
  intros [z [E _]]. discriminate E.
Qed.

(** The guard in the caller: [safeNum] puts [0] in place of [NaN] and
    the infinities, so what [calculateResults] normalizes is finite. *)
Lemma normalizeScore_safeNum_range (val center : jsnum) :
  int_in_range 5 95 (normalizeScore (safeNum val (Fin 0)) center).
Proof.
  apply normalizeScore_not_NaN.
  unfold safeNum. destruct val; cbn; discriminate.
Qed.

(** ** Classifier *)

Lemma zero_div (d : Q) : NQ 0 / d == 0.
Proof. unfold NQ, Qdiv. cbn. ring. Qed.

Lemma Qgtb_zero_div (d c : Q) : 0 <= c -> Qgtb (NQ 0 / d) c = false.
Proof. intro H. apply Qgtb_le. rewrite zero_div. exact H. Qed.

Lemma scenarioC_scores (now : Q) (start : option Q) :
  let s := sessionWith scenarioC start in
  archetypeScores (rates (durationSec now s) (metrics s)) (metrics s) =
  [ (Impulsive, 0%Z); (Analytical, 0%Z); (Perfectionist, 10%Z);
    (Observer, 20%Z); (Restless, 0%Z) ].
Proof.
  intro s. unfold archetypeScores, rates, s.
  cbn -[Qdiv Qgtb Qltb NQ durationSec].
  rewrite !Qgtb_zero_div by lra.
  reflexivity.
Qed.

(** C1, as amended: with every metric [0] and [mouseDistance = 2500]
    the rules [keystrokes < 5 && scrollCount < 5] (Observer, 20) and
    [avgVelocity < 0.8 && jitterCount < 20] (Perfectionist, 10) fire;
    the top score is 20, the zero-score branch is not reached, and the
    dominant personality is Observer. *)
Theorem scenarioC_is_Observer (now : Q) (start : option Q) :
  let s := sessionWith scenarioC start in
  let r := rates (durationSec now s) (metrics s) in
  topScore r (metrics s) = 20%Z /\
  fst (classify now s) = Observer /\
  personality (calculateResults now s) = Some Observer.
Proof.
  intros s r.
  pose proof (scenarioC_scores now start) as E. cbn zeta in E. fold s in E.
  unfold calculateResults, classify, topScore, dominant. fold r.
  unfold r. rewrite E. cbn. repeat split.
Qed.

(** C1 as stated fails: the session of scenario C, completed after
    30 seconds, is not classified Restless. *)
Lemma scenarioC_not_Restless :
  let s := sessionWith scenarioC (Some 1000) in
  topScore (rates (durationSec 31000 s) (metrics s)) (metrics s) <> 0%Z /\
  fst (classify 31000 s) <> Restless.
Proof. split; vm_compute; discriminate. Qed.

Lemma insert_desc_nonempty (x : Archetype * Z) (l : list (Archetype * Z)) :
  insert_desc x l <> [].
Proof.
  destruct l as [|y l]; cbn; [discriminate|].
  destruct (snd x <? snd y)%Z; discriminate.
Qed.

(** The zero-score branch itself: when no rule fires and
    [mouseDistance > 2000], the dominant personality is Restless. *)
Lemma zero_score_branch (r : Rates) (m : Metrics) :
  topScore r m = 0%Z -> 2000 < mouseDistance m ->
  dominant r m = Restless.
Proof.
  unfold topScore, dominant. intros Ht Hd.
  destruct (sort_desc (archetypeScores r m)) as [|[a0 s0] rest] eqn:E.
  - unfold archetypeScores, sort_desc in E. cbn [fold_right] in E.
    apply insert_desc_nonempty in E. contradiction.
  - subst s0. cbn. unfold fallbackDominant.
    rewrite (proj2 (Qgtb_gt _ _) Hd). reflexivity.
Qed.

(** C8: the [controlBias] sub-score is an integer of the range 0..100,
    and it is 50 when [clickCount] and [scrollCount] are both [0]. *)
Theorem controlBias_range (now : Q) (s : State) :
  let cb := controlBias (snd (classify now s)) in
  int_in_range 0 100 cb /\
  (clickCount (metrics s) = 0%N -> scrollCount (metrics s) = 0%N ->
   cb = Fin 50).
Proof.
  unfold classify, subScores. cbn [snd controlBias]. split.
  - apply (clamp_round_range 0 100). lia.
  - intros Hc Hs. unfold controlScore, rates. cbn [clickRate scrollRate].
    rewrite Hc, Hs.
    replace (Qgtb (NQ 0 / durationSec now s + NQ 0 / durationSec now s) 0)
      with false.
    + reflexivity.
    + symmetry. apply Qgtb_le. rewrite zero_div. lra.
Qed.

Lemma controlBias_range_witness :
  let s := sessionWith (newMetrics 1000) (Some 1000) in
  clickCount (metrics s) = 0%N /\ scrollCount (metrics s) = 0%N /\
  controlBias (snd (classify 31000 s)) = Fin 50.
Proof.
  intro s. split; [reflexivity|]. split; [reflexivity|].
  apply (proj2 (controlBias_range 31000 s)); reflexivity.
Defined.

(** *** [durationSec] *)

Ltac per_mille :=
  unfold Qdiv in *; change (/ 1000) with (1 # 1000) in *.

Lemma Qmin2_comp (a a' b b' : Q) :
  a == a' -> b == b' -> Qmin2 a b == Qmin2 a' b'.
Proof.
  intros Ha Hb.
  destruct (Qmin2_spec a b) as [[H1 E1]|[H1 E1]],
           (Qmin2_spec a' b') as [[H2 E2]|[H2 E2]];
    rewrite E1, E2; lra.
Qed.

Lemma Qmax2_comp (a a' b b' : Q) :
  a == a' -> b == b' -> Qmax2 a b == Qmax2 a' b'.
Proof.
  intros Ha Hb.
  destruct (Qmax2_spec a b) as [[H1 E1]|[H1 E1]],
           (Qmax2_spec a' b') as [[H2 E2]|[H2 E2]];
    rewrite E1, E2; lra.
Qed.

Lemma durationSec_of_actual (now : Q) (s : State) (d : Q) :
  actualDuration now s == d -> ~ d == 0 ->
  durationSec now s == clamp d 1 30.
Proof.
  intros Hd Hnz. unfold durationSec, clamp, or_else.
  assert (T : truthyQ (actualDuration now s) = true).
  { apply truthyQ_true. rewrite Hd. exact Hnz. }
  rewrite T.
  apply Qmax2_comp; [reflexivity|].
  apply Qmin2_comp; [reflexivity | exact Hd].
Qed.

Lemma durationSec_of_zero (now : Q) (s : State) :
  actualDuration now s == 0 -> durationSec now s == 30.
Proof.
  intro Hd. unfold durationSec, or_else.
  rewrite (proj2 (truthyQ_false _) Hd). reflexivity.
Qed.

(** C4, as amended: the duration is
    [clamp((last - first)/1000, 1, 30)], where [last] is
    [lastActivityTime] (the current time, were it unset; [resetMetrics]
    stamps it) and [first] is [firstActivityTime] or, in a session
    without a pointer sample, where it is unset, [startTime]; when
    [last] and [first] are equal the difference [0] is falsy and the
    duration is the full 30 seconds. *)
Theorem durationSec_cases (now : Q) (s : State) :
  let f := firstActivityTime (metrics s) in
  let last := or_else (lastActivityTime (metrics s)) now in
  (truthy f = true -> ~ last == to_num f ->
   durationSec now s == clamp ((last - to_num f) / 1000) 1 30) /\
  (truthy f = false -> ~ last == to_num (startTime s) ->
   durationSec now s
   == clamp ((last - to_num (startTime s)) / 1000) 1 30) /\
  (truthy f = true -> last == to_num f -> durationSec now s == 30) /\
  (truthy f = false -> last == to_num (startTime s) ->
   durationSec now s == 30).
Proof.
  intros f last.
  assert (A1 : truthy f = true ->
               actualDuration now s == (last - to_num f) / 1000).
  { intro Hf. unfold actualDuration. fold f last. rewrite Hf. reflexivity. }
  assert (A2 : truthy f = false ->
               actualDuration now s
               == (last - to_num (startTime s)) / 1000).
  { intro Hf. unfold actualDuration. fold f last. rewrite Hf. reflexivity. }
  split; [|split; [|split]].
  - intros Hf Hne. apply durationSec_of_actual; [exact (A1 Hf)|].
    intro E. apply Hne. per_mille. lra.
  - intros Hf Hne. apply durationSec_of_actual; [exact (A2 Hf)|].
    intro E. apply Hne. per_mille. lra.
  - intros Hf He. apply durationSec_of_zero. rewrite (A1 Hf).
    per_mille. lra.
  - intros Hf He. apply durationSec_of_zero. rewrite (A2 Hf).
    per_mille. lra.
Qed.

(** An untouched session (begun at clock readings 1000 and 1002) lasts
    one second for the classifier, a session whose only event is a
    click at 9000 eight seconds, and one with pointer samples at 5000
    and 12000 seven seconds. *)
Lemma durationSec_cases_witness :
  let untouched := state (beginObservation 1000 1002 initialApp) in
  let clicked :=
    state (handleClick (mkClickEvent false) 9000
             (beginObservation 1000 1002 initialApp)) in
  let moved :=
    state (handleMouseMove (fun q => q) (mkMouseEvent 40 60 12000) 12000
             (handleMouseMove (fun q => q) (mkMouseEvent 10 20 5000) 5000
                (beginObservation 1000 1002 initialApp))) in
  (durationSec 31000 untouched
   == clamp ((or_else (lastActivityTime (metrics untouched)) 31000
              - to_num (startTime untouched)) / 1000) 1 30 /\
   durationSec 31000 untouched == 1) /\
  (durationSec 31000 clicked
   == clamp ((or_else (lastActivityTime (metrics clicked)) 31000
              - to_num (startTime clicked)) / 1000) 1 30 /\
   durationSec 31000 clicked == 8) /\
  (durationSec 31000 moved
   == clamp ((or_else (lastActivityTime (metrics moved)) 31000
              - to_num (firstActivityTime (metrics moved))) / 1000) 1 30 /\
   durationSec 31000 moved == 7).
Proof.
  intros untouched clicked moved.
  split; [|split]; (split; [|vm_compute; reflexivity]).
  - apply (proj1 (proj2 (durationSec_cases 31000 untouched)));
      [vm_compute; reflexivity | vm_compute; discriminate].
  - apply (proj1 (proj2 (durationSec_cases 31000 clicked)));
      [vm_compute; reflexivity | vm_compute; discriminate].
  - apply (proj1 (durationSec_cases 31000 moved));
      [vm_compute; reflexivity | vm_compute; discriminate].
Defined.

(** C4 as stated fails when the two timestamps are equal (a session
    whose only activity is one pointer sample): the duration is 30
    seconds, not [clamp(0, 1, 30) = 1]. *)
Lemma durationSec_equal_timestamps :
  let m := set_firstActivityTime (Some 5000) (newMetrics 5000) in
  let s := sessionWith m (Some 1000) in
  truthyQ (lastActivityTime m) = true /\
  truthy (firstActivityTime m) = true /\
  durationSec 31000 s == 30 /\
  ~ durationSec 31000 s
    == clamp ((lastActivityTime m - to_num (firstActivityTime m)) / 1000)
         1 30.
Proof.
  repeat split; vm_compute; discriminate.
Qed.

(** ** Keystroke recorder *)

Lemma handleKeyDown_resolves : handleKeyDown = handleKeyDown_shortcuts.
Proof. reflexivity. Qed.

Lemma shortcuts_keep_metrics (e : KeyEvent) (now : Q) (a : App) :
  metrics (state (handleKeyDown_shortcuts e now a)) = metrics (state a).
Proof.
  unfold handleKeyDown_shortcuts.
  destruct (String.eqb (key e) "Escape" && isObserving (state a));
    reflexivity.
Qed.

(** No [keydown] event, as the listeners are wired, writes a field of
    [Metrics]. *)
Lemma keydown_event_keeps_metrics (Math_sqrt : Q -> Q) (onField : bool)
  (e : KeyEvent) (now : Q) (pg : Page) :
  metrics (state (app (dispatch Math_sqrt (KeyDownEv onField e) now pg)))
  = metrics (state (app pg)).
Proof.
  cbn [dispatch app]. rewrite handleKeyDown_resolves.
  rewrite shortcuts_keep_metrics.
  destruct onField; [apply shortcuts_keep_metrics | reflexivity].
Qed.

(** C2, on the code: a Backspace typed in the typing field of an
    Observing session, outside composition, reaches only the second
    [handleKeyDown]; [backspaces] and [lastActivityTime] stay as they
    were, and so does [keystrokes] for a letter. *)
Theorem keydown_backspace_not_counted :
  let pg := freshPage (observingAt 1000) in
  let pg1 := dispatch (fun q => q) (KeyDownEv true backspaceKey) 1500 pg in
  let pg2 := dispatch (fun q => q) (KeyDownEv true letterKey) 1500 pg in
  sessionState (app pg) = Observing /\
  isComposing (app pg) = false /\
  backspaces (metrics (state (app pg))) = 0%N /\
  backspaces (metrics (state (app pg1))) = 0%N /\
  keystrokes (metrics (state (app pg2))) = 0%N /\
  lastActivityTime (metrics (state (app pg1))) = 1000.
Proof. repeat split. Qed.

(** The recorder that the class body declares first does what C2
    says, when it is called. *)
Lemma recorder_counts_keys (e : KeyEvent) (now : Q) (a : App) :
  isObserving (state a) = true -> isDestroyed a = false ->
  isComposing a = false -> ev_isComposing e = false ->
  let m := metrics (state a) in
  let m' := metrics (state (handleKeyDown_recorder e now a)) in
  (key e = "Backspace"%string ->
   backspaces m' = (backspaces m + 1)%N /\ lastActivityTime m' = now) /\
  (key e <> "Backspace"%string -> printable e = true ->
   keystrokes m' = (keystrokes m + 1)%N /\ lastActivityTime m' = now).
Proof.
  intros Ho Hd Hc He m m'. subst m m'. unfold handleKeyDown_recorder.
  rewrite Ho, Hd, Hc, He. cbn [negb orb]. split.
  - intro Hk. rewrite Hk. cbn. split; reflexivity.
  - intros Hk Hp.
    assert (Hdead : String.eqb (key e) "Dead" = false).
    { apply String.eqb_neq. intro E. unfold printable in Hp.
      rewrite E in Hp. discriminate Hp. }
    rewrite Hdead, (proj2 (String.eqb_neq _ _) Hk), Hp. cbn.
    split; reflexivity.
Qed.

(** So does [handleTyping] of [part_000], which is the listener there. *)
Lemma handleTyping_counts_keys (e : KeyEvent) (now : Q) (a : App) :
  isObserving (state a) = true -> ev_isComposing e = false ->
  let m := metrics (state a) in
  let m' := metrics (state (Part000.handleTyping e now a)) in
  (key e = "Backspace"%string ->
   backspaces m' = (backspaces m + 1)%N /\ lastActivityTime m' = now) /\
  (key e <> "Backspace"%string -> printable e = true ->
   keystrokes m' = (keystrokes m + 1)%N /\ lastActivityTime m' = now).
Proof.
  intros Ho He m m'. subst m m'. unfold Part000.handleTyping.
  rewrite Ho, He. cbn [negb orb]. split.
  - intro Hk. rewrite Hk. cbn. split; reflexivity.
  - intros Hk Hp.
    assert (Hdead : String.eqb (key e) "Dead" = false).
    { apply String.eqb_neq. intro E. unfold printable in Hp.
      rewrite E in Hp. discriminate Hp. }
    rewrite Hdead, (proj2 (String.eqb_neq _ _) Hk), Hp. cbn.
    split; reflexivity.
Qed.

(** ** Recorders outside an observed, visible session *)

Lemma guard_closed (a : App) :
  isObserving (state a) = false \/ hidden (state a) = true ->
  negb (isObserving (state a)) || hidden (state a) || isDestroyed a = true.
Proof.
  intros [H|H]; rewrite H.
  - reflexivity.
  - rewrite orb_true_r. reflexivity.
Qed.

(** C6: an input event (pointer sample, scroll, wheel, click or
    keydown) that arrives while the session is not Observing, or while
    the tab is hidden, leaves every field of [Metrics] unchanged.  The
    instance as a whole is unchanged too, but for the Escape key, which
    ends a session that is observed behind a hidden tab. *)
Theorem event_outside_session_noop (Math_sqrt : Q -> Q) (ev : InputEvent)
  (now : Q) (pg : Page) :
  isObserving (state (app pg)) = false \/ hidden (state (app pg)) = true ->
  let pg' := dispatch Math_sqrt ev now pg in
  metrics (state (app pg')) = metrics (state (app pg)) /\
  match ev with
  | KeyDownEv _ e =>
      String.eqb (key e) "Escape" && isObserving (state (app pg)) = false ->
      app pg' = app pg
  | _ => app pg' = app pg
  end.
Proof.
  intros H pg'. subst pg'.
  pose proof (guard_closed (app pg) H) as G.
  destruct ev as [e| |e|e|onField e].
  - assert (E : app (dispatch Math_sqrt (PointerMove e) now pg) = app pg).
    { cbn [dispatch]. unfold throttle, handleMouseMove. rewrite G.
      destruct (mouseThrottle pg); reflexivity. }
    rewrite E. split; reflexivity.
  - assert (E : app (dispatch Math_sqrt ScrollEv now pg) = app pg).
    { cbn [dispatch]. unfold throttle, handleScroll. rewrite G.
      destruct (scrollThrottle pg); reflexivity. }
    rewrite E. split; reflexivity.
  - assert (E : app (dispatch Math_sqrt (WheelEv e) now pg) = app pg).
    { cbn [dispatch]. unfold throttle, handleWheel. rewrite G.
      destruct (wheelThrottle pg); reflexivity. }
    rewrite E. split; reflexivity.
  - assert (E : app (dispatch Math_sqrt (ClickEv e) now pg) = app pg).
    { cbn [dispatch app]. unfold handleClick. rewrite G. reflexivity. }
    rewrite E. split; reflexivity.
  - split; [apply keydown_event_keeps_metrics|].
    intro K. cbn [dispatch app]. rewrite handleKeyDown_resolves.
    unfold handleKeyDown_shortcuts.
    destruct onField; repeat rewrite K; reflexivity.
Qed.

(** A tab hidden at 2000: a scroll and a Backspace in the typing field
    at 2500 leave the metrics as they were. *)
Lemma event_outside_session_noop_witness :
  let pg := freshPage (handleVisibilityChange true 2000 (observingAt 1000)) in
  (let pg' := dispatch (fun q => q) ScrollEv 2500 pg in
   metrics (state (app pg')) = metrics (state (app pg)) /\
   app pg' = app pg) /\
  (let pg' := dispatch (fun q => q) (KeyDownEv true backspaceKey) 2500 pg in
   metrics (state (app pg')) = metrics (state (app pg)) /\
   (String.eqb (key backspaceKey) "Escape"
    && isObserving (state (app pg)) = false ->
    app pg' = app pg)).
Proof.
  intro pg. split.
  - apply (event_outside_session_noop (fun q => q) ScrollEv 2500 pg).
    right. vm_compute. reflexivity.
  - apply (event_outside_session_noop (fun q => q)
             (KeyDownEv true backspaceKey) 2500 pg).
    right. vm_compute. reflexivity.
Defined.

(** [handleTyping] of [part_000], the [keydown] listener there, tests
    [isObserving] but not [hidden]: it counts a Backspace typed while
    the tab is hidden. *)
Lemma handleTyping_ignores_hidden :
  let a := handleVisibilityChange true 2000 (observingAt 1000) in
  isObserving (state a) = true /\ hidden (state a) = true /\
  backspaces (metrics (state a)) = 0%N /\
  backspaces (metrics (state (Part000.handleTyping backspaceKey 2500 a)))
  = 1%N.
Proof. repeat split. Qed.

(** ** Completion *)

(** C7: if the classification throws, the session is Completed all the
    same, with personality Observer and the four sub-scores 50. *)
Theorem classification_failure_fallback
  (calc : Q -> State -> JsError + State) (now : Q) (a : App)
  (err : JsError) :
  calc now (state (stopObservation a)) = inl err ->
  let a' := completeObservationWith calc now a in
  sessionState a' = Completed /\
  isObserving (state a') = false /\
  personality (state a') = Some Observer /\
  scores (state a')
  = Some {| focus := Fin 50; hesitation := Fin 50;
            controlBias := Fin 50; energy := Fin 50 |}.
Proof.
  intros Hthrow a'. subst a'. unfold completeObservationWith.
  rewrite Hthrow. repeat split.
Qed.

Lemma classification_failure_fallback_witness :
  let calc : Q -> State -> JsError + State :=
    fun _ _ => inl "TypeError"%string in
  let a' := completeObservationWith calc 31000 (observingAt 1000) in
  sessionState a' = Completed /\
  isObserving (state a') = false /\
  personality (state a') = Some Observer /\
  scores (state a')
  = Some {| focus := Fin 50; hesitation := Fin 50;
            controlBias := Fin 50; energy := Fin 50 |}.
Proof.
  intro calc.
  apply (classification_failure_fallback calc 31000 (observingAt 1000)
           "TypeError"%string).
  reflexivity.
Defined.

(** ** Session clock *)

(** The classifier writes [personality] and [scores] and nothing else. *)
Lemma calculateResults_frame (now : Q) (s : State) :
  let s' := calculateResults now s in
  isObserving s' = isObserving s /\ startTime s' = startTime s /\
  duration s' = duration s /\ timeRemaining s' = timeRemaining s /\
  hiddenTime s' = hiddenTime s /\ hidden s' = hidden s /\
  metrics s' = metrics s.
Proof.
  unfold calculateResults. destruct (classify now s) as [p sc].
  cbn. repeat split.
Qed.

(** A countdown tick leaves the clock anchors alone. *)
Lemma update_clock (now : Q) (a : App) :
  startTime (state (update now a)) = startTime (state a) /\
  duration (state (update now a)) = duration (state a) /\
  hiddenTime (state (update now a)) = hiddenTime (state a).
Proof.
  unfold update.
  destruct (negb (isObserving (state a)) || hidden (state a)
            || isDestroyed a); [repeat split|].
  set (a1 := if negb (remaining now (state a) =? timeRemaining (state a))%Z
             then upd_state (set_timeRemaining (remaining now (state a))) a
             else a).
  assert (H1 : startTime (state a1) = startTime (state a) /\
               duration (state a1) = duration (state a) /\
               hiddenTime (state a1) = hiddenTime (state a)).
  { unfold a1.
    destruct (negb (remaining now (state a) =? timeRemaining (state a))%Z);
      repeat split. }
  destruct (Qgeb (elapsed now (state a)) (duration (state a)));
    [|exact H1].
  unfold completeObservation, completeObservationWith.
  cbn [set_state state].
  destruct (calculateResults_frame now (state (stopObservation a1)))
    as (_ & Es & Ed & _ & Eh & _).
  rewrite Es, Ed, Eh. exact H1.
Qed.

Lemma startTimer_clock (now : Q) (a : App) :
  startTime (state (startTimer now a)) = startTime (state a) /\
  duration (state (startTimer now a)) = duration (state a) /\
  hiddenTime (state (startTimer now a)) = hiddenTime (state a).
Proof.
  unfold startTimer. cbn [set_countdownTimer state].
  apply (update_clock now (set_countdownTimer false a)).
Qed.

(** The pause: [hiddenTime] is set, [startTime] is not touched. *)
Lemma pause_state (t : Q) (a : App) :
  isObserving (state a) = true ->
  state (handleVisibilityChange true t a)
  = set_hiddenTime t (set_hidden true (state a)).
Proof.
  intro Ho. unfold handleVisibilityChange. rewrite Ho. reflexivity.
Qed.

(** The resume: [startTime] moves by [now - hiddenTime]. *)
Lemma resume_startTime (t : Q) (a : App) :
  isObserving (state a) = true ->
  startTime (state (handleVisibilityChange false t a))
  = Some (to_num (startTime (state a)) + (t - hiddenTime (state a))) /\
  duration (state (handleVisibilityChange false t a)) = duration (state a) /\
  hiddenTime (state (handleVisibilityChange false t a))
  = hiddenTime (state a).
Proof.
  intro Ho. unfold handleVisibilityChange. rewrite Ho.
  cbn [negb upd_state set_state state set_hidden set_startTime isObserving].
  rewrite Ho. unfold startIdleTracker. cbn [set_idleTimer state].
  match goal with
  | |- context [startTimer t ?x] =>
      destruct (startTimer_clock t x) as (Es & Ed & Eh)
  end.
  rewrite Es, Ed, Eh. repeat split.
Qed.

Lemma remaining_anchors (now : Q) (s s' : State) :
  startTime s' = startTime s -> duration s' = duration s ->
  remaining now s' = remaining now s.
Proof.
  intros Es Ed. unfold remaining, elapsed. rewrite Es, Ed. reflexivity.
Qed.

(** A tick of a visible, observed session stores what it computed. *)
Lemma update_timeRemaining (now : Q) (a : App) :
  isObserving (state a) = true -> hidden (state a) = false ->
  isDestroyed a = false ->
  timeRemaining (state (update now a)) = remaining now (state a).
Proof.
  intros Ho Hh Hd. unfold update. rewrite Ho, Hh, Hd. cbn [negb orb].
  set (r := remaining now (state a)).
  set (a1 := if negb (r =? timeRemaining (state a))%Z
             then upd_state (set_timeRemaining r) a else a).
  assert (H1 : timeRemaining (state a1) = r).
  { unfold a1. destruct (r =? timeRemaining (state a))%Z eqn:E.
    - apply Z.eqb_eq in E. cbn. symmetry. exact E.
    - reflexivity. }
  destruct (Qgeb (elapsed now (state a)) (duration (state a)));
    [|exact H1].
  unfold completeObservation, completeObservationWith.
  cbn [set_state state].
  destruct (calculateResults_frame now (state (stopObservation a1)))
    as (_ & _ & _ & Et & _).
  rewrite Et. exact H1.
Qed.

(** The immediate tick of the resume shows the remaining time. *)
Lemma resume_timeRemaining (t : Q) (a : App) :
  isObserving (state a) = true -> isDestroyed a = false ->
  let a' := handleVisibilityChange false t a in
  timeRemaining (state a') = remaining t (state a').
Proof.
  intros Ho Hd a'.
  unfold a', handleVisibilityChange. rewrite Ho.
  cbn [negb upd_state set_state state set_hidden set_startTime isObserving].
  rewrite Ho. unfold startIdleTracker, startTimer.
  cbn [set_idleTimer set_countdownTimer state].
  match goal with
  | |- context [update t ?x] =>
      rewrite (update_timeRemaining t x Ho eq_refl Hd);
      destruct (update_clock t x) as (Us & Ud & _)
  end.
  symmetry. apply remaining_anchors; [exact Us | exact Ud].
Qed.

(** C5, as amended: the pause is idempotent (a second pause at the
    same clock reading changes nothing, and at any reading it leaves
    [startTime] alone); the resume is not: each call adds
    [now - hiddenTime] to [startTime], so a second resume shifts it a
    second time. *)
Theorem visibility_repeated (a : App) (t0 t1 t2 : Q) :
  isObserving (state a) = true ->
  let p := handleVisibilityChange true t0 a in
  let r1 := handleVisibilityChange false t1 p in
  let r2 := handleVisibilityChange false t2 r1 in
  handleVisibilityChange true t0 p = p /\
  startTime (state (handleVisibilityChange true t1 p))
  = startTime (state a) /\
  to_num (startTime (state r1))
  == to_num (startTime (state a)) + (t1 - t0) /\
  (isObserving (state r1) = true ->
   to_num (startTime (state r2))
   == to_num (startTime (state a)) + (t1 - t0) + (t2 - t0)).
Proof.
  intros Ho p r1 r2.
  assert (Hp : isObserving (state p) = true).
  { unfold p. rewrite pause_state by exact Ho. exact Ho. }
  assert (Ep : startTime (state p) = startTime (state a) /\
               hiddenTime (state p) = t0).
  { unfold p. rewrite pause_state by exact Ho. split; reflexivity. }
  destruct Ep as [Eps Eph].
  destruct (resume_startTime t1 p Hp) as (E1 & _ & H1).
  fold r1 in E1, H1. rewrite Eps, Eph in E1.
  repeat split.
  - unfold p, handleVisibilityChange. rewrite Ho. cbn. rewrite Ho.
    reflexivity.
  - rewrite pause_state by exact Hp. exact Eps.
  - rewrite E1. reflexivity.
  - intro Ho1.
    destruct (resume_startTime t2 r1 Ho1) as (E2 & _ & _).
    fold r2 in E2. rewrite E2, H1, Eph, E1. cbn [to_num]. reflexivity.
Qed.

Lemma visibility_repeated_witness :
  let a := observingAt 1000 in
  let p := handleVisibilityChange true 5000 a in
  let r1 := handleVisibilityChange false 8000 p in
  let r2 := handleVisibilityChange false 9000 r1 in
  handleVisibilityChange true 5000 p = p /\
  startTime (state (handleVisibilityChange true 8000 p))
  = startTime (state a) /\
  to_num (startTime (state r1))
  == to_num (startTime (state a)) + (8000 - 5000) /\
  (isObserving (state r1) = true ->
   to_num (startTime (state r2))
   == to_num (startTime (state a)) + (8000 - 5000) + (9000 - 5000)).
Proof.
  apply (visibility_repeated (observingAt 1000) 5000 8000 9000).
  reflexivity.
Defined.

(** C5 as stated fails for the resume: a session begun at 1000 and
    hidden from 5000 to 8000 has [startTime] 4000 after one resume and
    7000 after a second one at the same instant. *)
Lemma resume_twice_shifts_twice :
  let a := observingAt 1000 in
  let p := handleVisibilityChange true 5000 a in
  let r1 := handleVisibilityChange false 8000 p in
  let r2 := handleVisibilityChange false 8000 r1 in
  sessionState a = Observing /\
  to_num (startTime (state r1)) == 4000 /\
  to_num (startTime (state r2)) == 7000 /\
  ~ to_num (startTime (state r2)) == to_num (startTime (state r1)).
Proof.
  repeat split. vm_compute. discriminate.
Qed.

(** On exact numbers, a pause at [t1] and a resume at [t2], [h] later,
    move [startTime] forward by [h] and leave the remaining seconds as
    they were. *)
Lemma pause_resume_exact (a : App) (t1 t2 h : Q) :
  isObserving (state a) = true -> t2 == t1 + h ->
  let a' :=
    handleVisibilityChange false t2 (handleVisibilityChange true t1 a) in
  to_num (startTime (state a')) == to_num (startTime (state a)) + h /\
  remaining t2 (state a') = remaining t1 (state a) /\
  (isDestroyed a = false ->
   timeRemaining (state a') = remaining t1 (state a)).
Proof.
  intros Ho Ht a'. subst a'.
  set (p := handleVisibilityChange true t1 a).
  assert (Hp : isObserving (state p) = true).
  { unfold p. rewrite pause_state by exact Ho. exact Ho. }
  destruct (resume_startTime t2 p Hp) as (E1 & D1 & _).
  set (a' := handleVisibilityChange false t2 p) in *.
  assert (Ep : startTime (state p) = startTime (state a) /\
               hiddenTime (state p) = t1 /\
               duration (state p) = duration (state a)).
  { unfold p. rewrite pause_state by exact Ho. repeat split. }
  destruct Ep as (Eps & Eph & Epd).
  rewrite Eps, Eph in E1. rewrite Epd in D1.
  assert (S : to_num (startTime (state a'))
              == to_num (startTime (state a)) + h).
  { rewrite E1. cbn [to_num]. lra. }
  assert (R : remaining t2 (state a') = remaining t1 (state a)).
  { unfold remaining, elapsed. rewrite D1. f_equal.
    apply Qceiling_comp. rewrite S. unfold Qdiv.
    change (/ 1000) with (1 # 1000). lra. }
  split; [exact S|]. split; [exact R|].
  intro Hd. rewrite <- R.
  apply (resume_timeRemaining t2 p Hp).
  unfold p, handleVisibilityChange. rewrite Ho. exact Hd.
Qed.

(** C10, as amended: when [startTime] and the two clock readings are
    whole milliseconds (below [2^53], where doubles add and subtract
    without rounding), a pause at [t1] and a resume [h] later move
    [startTime] forward by exactly [h], and the countdown shows after
    the resume what it showed at the pause. *)
Theorem pause_resume_whole_ms (a : App) (s0 t1 h : Z) :
  isObserving (state a) = true ->
  startTime (state a) = Some (inject_Z s0) ->
  duration (state a) = 30000 ->
  (0 <= s0 <= t1)%Z -> (0 <= h)%Z -> (t1 + h < 2 ^ 53)%Z ->
  let a' :=
    handleVisibilityChange false (inject_Z (t1 + h))
      (handleVisibilityChange true (inject_Z t1) a) in
  to_num (startTime (state a')) == inject_Z (s0 + h) /\
  remaining (inject_Z (t1 + h)) (state a')
  = remaining (inject_Z t1) (state a) /\
  (isDestroyed a = false ->
   timeRemaining (state a') = remaining (inject_Z t1) (state a)).
Proof.
  intros Ho Hs _ _ _ _ a'.
  assert (Ht : inject_Z (t1 + h) == inject_Z t1 + inject_Z h).
  { rewrite inject_Z_plus. reflexivity. }
  destruct (pause_resume_exact a (inject_Z t1) (inject_Z (t1 + h))
              (inject_Z h) Ho Ht) as (S & R & T).
  fold a' in S, R, T.
  split; [|split; [exact R | exact T]].
  rewrite S, Hs. cbn [to_num]. rewrite inject_Z_plus. reflexivity.
Qed.

(** A session begun at 1000, hidden at 5000 for three seconds. *)
Lemma pause_resume_whole_ms_witness :
  let a := observingAt 1000 in
  let a' :=
    handleVisibilityChange false (inject_Z (5000 + 3000))
      (handleVisibilityChange true (inject_Z 5000) a) in
  to_num (startTime (state a')) == inject_Z (1000 + 3000) /\
  remaining (inject_Z (5000 + 3000)) (state a')
  = remaining (inject_Z 5000) (state a) /\
  timeRemaining (state a') = remaining (inject_Z 5000) (state a).
Proof.
  intros a a'.
  destruct (pause_resume_whole_ms a 1000 5000 3000) as (S & R & T);
    [ vm_compute; reflexivity | vm_compute; reflexivity
    | vm_compute; reflexivity | lia | lia | reflexivity | ].
  split; [exact S|]. split; [exact R|].
  apply T. vm_compute. reflexivity.
Defined.

Section DoubleClock.

Import PrimFloat.
Local Open Scope float_scope.

(** C10 as stated fails on doubles with fractional clock readings: a
    session begun at 24695.3 is hidden at 30695.3, with 24 seconds
    remaining, and shown again at 64718.6; the two additions of the
    resume round, [elapsed] comes out as 5999.999999999993, and the
    countdown shows 25. *)
Lemma pause_resume_rounds :
  let c := Doubles.fractionalSession in
  let p := Doubles.handleVisibilityChange true Doubles.hiddenAt c in
  let r := Doubles.handleVisibilityChange false Doubles.shownAt p in
  Doubles.remaining Doubles.hiddenAt c = 24 /\
  Doubles.isObserving r = true /\
  Doubles.remaining Doubles.shownAt r = 25 /\
  Doubles.timeRemaining r = 25 /\
  Doubles.elapsed Doubles.hiddenAt c = 6000 /\
  (Doubles.elapsed Doubles.shownAt r <? 6000) = true.
Proof. repeat split; vm_compute; reflexivity. Qed.

End DoubleClock.

(** ** Idle detector *)

Lemma gapThenActive_gap (t0 gap : Q) :
  inactivityGap t0 gap (gapThenActive t0 gap).
Proof.
  unfold inactivityGap, gapThenActive. split; intros p Hp.
  - rewrite (proj2 (Qltb_lt _ _) Hp). reflexivity.
  - rewrite (proj2 (Qltb_ge _ _) Hp). lra.
Qed.

Lemma sessionState_Observing (a : App) :
  sessionState a = Observing ->
  isObserving (state a) = true /\ hidden (state a) = false.
Proof.
  unfold sessionState.
  destruct (isObserving (state a)), (hidden (state a)),
    (personality (state a)); intro H; try discriminate H; split; reflexivity.
Qed.

(** One poll keeps the invariant when the gap is at most 800ms. *)
Lemma poll_keeps_invariant (t0 gap i0 p : Q) (act : Q -> Q) (a : App) :
  0 <= t0 -> gap <= 800 -> inactivityGap t0 gap act ->
  idleInvariant t0 gap i0 p a ->
  idleInvariant t0 gap i0 (p + 100) (pollAfterActivity act p a).
Proof.
  intros Ht0 Hgap [Hin Hout] (Ho & Hh & Hd & Hi & Hs).
  assert (Hlate : t0 + gap <= p -> Qltb (p - act p) 100 = true).
  { intro L. apply Qltb_lt. destruct (Hout p L). lra. }
  assert (Hearly : p < t0 + gap -> p - act p == p - t0).
  { intro L. rewrite (Hin p L). reflexivity. }
  unfold pollAfterActivity, handleBeforeInput. rewrite Ho. cbn [negb].
  unfold checkIdle.
  cbn [upd_metrics set_state state set_metrics isObserving hidden
       isDestroyed metrics set_lastActivityTime lastActivityTime idleStart].
  rewrite Ho, Hh, Hd. cbn [negb orb].
  destruct Hs as [Hs | [o (Hs & Ho1 & Ho2)]]; rewrite Hs.
  - cbn [truthy andb negb to_num].
    destruct (Qgtb (p - act p) 400) eqn:E.
    + apply Qgtb_gt in E.
      assert (L : p < t0 + gap).
      { apply Qnot_le_lt. intro L. apply Hlate in L.
        apply Qltb_lt in L. lra. }
      rewrite (Hearly L) in E.
      unfold idleInvariant. cbn. rewrite Ho, Hh, Hd, Hi.
      repeat split. right. exists p. repeat split; lra.
    + unfold idleInvariant. cbn. rewrite Ho, Hh, Hd, Hi.
      repeat split. left. exact Hs.
  - cbn [truthy to_num]. rewrite (truthyQ_pos o) by lra.
    cbn [andb negb].
    destruct (Qltb (p - act p) 100) eqn:E.
    + replace (Qgtb (p - o) 500) with false
        by (symmetry; apply Qgtb_le; lra).
      unfold idleInvariant. cbn. rewrite Ho, Hh, Hd, Hi.
      repeat split. left. reflexivity.
    + assert (L : p < t0 + gap).
      { apply Qnot_le_lt. intro L. apply Hlate in L. congruence. }
      unfold idleInvariant. cbn. rewrite Ho, Hh, Hd, Hi, Hs.
      repeat split. right. exists o. repeat split; lra.
Qed.

Lemma polls_keep_invariant (t0 gap i0 : Q) (act : Q -> Q) (n : nat) :
  0 <= t0 -> gap <= 800 -> inactivityGap t0 gap act ->
  forall (p : Q) (a : App),
    idleInvariant t0 gap i0 p a ->
    idleInvariant t0 gap i0 (p + 100 * inject_Z (Z.of_nat n))
      (runPolls act p n a).
Proof.
  intros Ht0 Hgap Hact. induction n as [|n IH]; intros p a Hinv.
  - cbn [runPolls].
    destruct Hinv as (Ho & Hh & Hd & Hi & Hs).
    repeat split; try assumption.
    destruct Hs as [Hs | [o (Hs & Ho1 & Ho2)]]; [left; exact Hs|].
    right. exists o. repeat split; try assumption.
    change (inject_Z (Z.of_nat 0)) with 0. lra.
  - cbn [runPolls].
    pose proof (IH (p + 100) _
                  (poll_keeps_invariant t0 gap i0 p act a Ht0 Hgap Hact Hinv))
      as (Ho & Hh & Hd & Hi & Hs).
    repeat split; try assumption.
    destruct Hs as [Hs | [o (Hs & Ho1 & Ho2)]]; [left; exact Hs|].
    right. exists o. repeat split; try assumption.
    rewrite Nat2Z.inj_succ, <- Z.add_1_r, inject_Z_plus.
    change (inject_Z 1) with 1. lra.
Qed.

(** C3, as amended: under the 100ms cadence an inactivity gap of 450ms
    followed by resumed activity adds nothing to [idleTime], and neither
    does a gap of 600ms, nor any gap of at most 800ms.  The idle period
    runs from the poll that opens it, more than 400ms after the last
    activity, to the poll that closes it, less than 100ms after the
    activity resumes: less than [gap - 300], so not more than 500. *)
Theorem short_gap_adds_nothing (a : App) (t0 gap : Q) (act : Q -> Q)
  (p : Q) (n : nat) :
  sessionState a = Observing -> isDestroyed a = false ->
  idleStart a = None -> 0 <= t0 -> gap <= 800 ->
  inactivityGap t0 gap act ->
  idleTime (metrics (state (runPolls act p n a)))
  = idleTime (metrics (state a)).
Proof.
  intros Hs Hd Hi Ht0 Hgap Hact.
  destruct (sessionState_Observing a Hs) as [Ho Hh].
  assert (Inv : idleInvariant t0 gap (idleTime (metrics (state a))) p a).
  { repeat split; try assumption. left. exact Hi. }
  apply (polls_keep_invariant t0 gap _ act n Ht0 Hgap Hact) in Inv.
  destruct Inv as (_ & _ & _ & E & _). exact E.
Qed.

Lemma short_gap_adds_nothing_witness :
  let a := observingAt 1000 in
  (idleTime (metrics (state (runPolls (gapThenActive 1000 450) 1050 7 a)))
   = idleTime (metrics (state a))) /\
  (idleTime (metrics (state (runPolls (gapThenActive 1000 600) 1050 7 a)))
   = idleTime (metrics (state a))).
Proof.
  intro a. split.
  - apply (short_gap_adds_nothing a 1000 450 (gapThenActive 1000 450)
             1050 7);
      try reflexivity; try (vm_compute; discriminate).
    apply gapThenActive_gap.
  - apply (short_gap_adds_nothing a 1000 600 (gapThenActive 1000 600)
             1050 7);
      try reflexivity; try (vm_compute; discriminate).
    apply gapThenActive_gap.
Defined.

(** C3 as stated fails for the gap of 600ms.  Last activity at 1000,
    polls at 1050, 1150, ...: the poll at 1450 opens the idle period,
    activity resumes at 1600, the poll at 1650 closes the period after
    200ms, and [idleTime] is still [0]. *)
Lemma gap_600_adds_nothing :
  let a := observingAt 1000 in
  let act := gapThenActive 1000 600 in
  sessionState a = Observing /\
  idleStart (runPolls act 1050 4 a) = None /\
  idleStart (runPolls act 1050 5 a) = Some 1450 /\
  idleStart (runPolls act 1050 6 a) = Some 1450 /\
  idleStart (runPolls act 1050 7 a) = None /\
  idleTime (metrics (state (runPolls act 1050 7 a))) == 0 /\
  ~ 500 <= idleTime (metrics (state (runPolls act 1050 7 a))).
Proof.
  repeat split. vm_compute. intro H. apply H. reflexivity.
Qed.

(** A longer gap is counted from the opening poll on: the gap of
    1000ms adds the 600ms between the polls at 1450 and 2050. *)
Lemma gap_1000_adds_600 :
  let a := observingAt 1000 in
  let act := gapThenActive 1000 1000 in
  idleStart (runPolls act 1050 5 a) = Some 1450 /\
  idleStart (runPolls act 1050 11 a) = None /\
  idleTime (metrics (state (runPolls act 1050 11 a))) == 600.
Proof. repeat split. Qed.

(** ** Further properties of the classifier *)

Lemma durationSec_range (now : Q) (s : State) :
  1 <= durationSec now s /\ durationSec now s <= 30.
Proof.
  unfold durationSec.
  set (x := or_else (actualDuration now s) 30).
  destruct (Qmin2_spec 30 x) as [[H1 E1]|[H1 E1]]; rewrite E1;
    destruct (Qmax2_spec 1 30) as [[H2 E2]|[H2 E2]];
    destruct (Qmax2_spec 1 x) as [[H3 E3]|[H3 E3]];
    try rewrite E2; try rewrite E3; lra.
Qed.

(** X1: whatever the timestamps and the clock, the duration that the
    rates are divided by lies between 1 and 30 seconds. *)
Theorem durationSec_bounds (now : Q) (s : State) :
  1 <= durationSec now s /\ durationSec now s <= 30.
Proof. apply durationSec_range. Qed.

Lemma NQ_nonneg (n : N) : 0 <= NQ n.
Proof.
  unfold NQ. change 0 with (inject_Z 0). rewrite <- Zle_Qle. lia.
Qed.

Lemma NQ_pos (n : N) : (0 <? n)%N = true -> 0 < NQ n.
Proof.
  intro H. apply N.ltb_lt in H.
  unfold NQ. change 0 with (inject_Z 0). rewrite <- Zlt_Qlt. lia.
Qed.

Lemma Qdiv_nonneg (a b : Q) : 0 <= a -> 0 < b -> 0 <= a / b.
Proof.
  intros Ha Hb. apply Qle_shift_div_l; [exact Hb|]. lra.
Qed.

(** X2: the rates are never negative when the two accumulated
    quantities they use, [velocitySum] and [idleTime], are not. *)
Theorem rates_nonneg (now : Q) (s : State) :
  0 <= velocitySum (metrics s) -> 0 <= idleTime (metrics s) ->
  let r := rates (durationSec now s) (metrics s) in
  0 <= avgVelocity r /\ 0 <= clickRate r /\ 0 <= scrollRate r /\
  0 <= activityDensity r /\ 0 <= deletionRate r /\ 0 <= avgIdleGap r.
Proof.
  intros Hv Hi r. subst r. unfold rates.
  cbn [avgVelocity clickRate scrollRate activityDensity deletionRate
       avgIdleGap].
  destruct (durationSec_range now s) as [Hd _].
  assert (Hd0 : 0 < durationSec now s) by lra.
  repeat split.
  - destruct (0 <? velocityCount (metrics s))%N eqn:E; [|lra].
    apply Qdiv_nonneg; [exact Hv | apply NQ_pos, E].
  - apply Qdiv_nonneg; [apply NQ_nonneg | exact Hd0].
  - apply Qdiv_nonneg; [apply NQ_nonneg | exact Hd0].
  - apply Qdiv_nonneg; [apply NQ_nonneg | exact Hd0].
  - destruct (0 <? keystrokes (metrics s))%N eqn:E; [|lra].
    apply Qdiv_nonneg; [apply NQ_nonneg | apply NQ_pos, E].
  - destruct (0 <? clickCount (metrics s))%N eqn:E; [|lra].
    apply Qdiv_nonneg; [exact Hi | apply NQ_pos, E].
Qed.

Lemma rates_nonneg_witness :
  let s := sessionWith (newMetrics 1000) (Some 1000) in
  let r := rates (durationSec 31000 s) (metrics s) in
  0 <= avgVelocity r /\ 0 <= clickRate r /\ 0 <= scrollRate r /\
  0 <= activityDensity r /\ 0 <= deletionRate r /\ 0 <= avgIdleGap r.
Proof.
  apply (rates_nonneg 31000 (sessionWith (newMetrics 1000) (Some 1000)));
    vm_compute; discriminate.
Defined.

Lemma subScores_ranges_aux (now : Q) (s : State) :
  let sc := snd (classify now s) in
  int_in_range 5 95 (focus sc) /\ int_in_range 5 95 (hesitation sc) /\
  int_in_range 0 100 (controlBias sc) /\ int_in_range 5 95 (energy sc).
Proof.
  unfold classify, subScores.
  cbn [snd focus hesitation controlBias energy].
  repeat split.
  - apply normalizeScore_safeNum_range.
  - apply normalizeScore_safeNum_range.
  - apply (clamp_round_range 0 100). lia.
  - apply normalizeScore_safeNum_range.
Qed.

(** X3: the four sub-scores of every classification are integers,
    [focus], [hesitation] and [energy] of the range 5..95 and
    [controlBias] of the range 0..100. *)
Theorem subScores_ranges (now : Q) (s : State) :
  let sc := snd (classify now s) in
  int_in_range 5 95 (focus sc) /\ int_in_range 5 95 (hesitation sc) /\
  int_in_range 0 100 (controlBias sc) /\ int_in_range 5 95 (energy sc).
Proof. apply subScores_ranges_aux. Qed.

(** *** The sort of the entries *)

Lemma insert_desc_perm (x : Archetype * Z) (l : list (Archetype * Z)) :
  Permutation (x :: l) (insert_desc x l).
Proof.
  induction l as [|y l IH]; cbn [insert_desc]; [reflexivity|].
  destruct (snd x <? snd y)%Z; [|reflexivity].
  rewrite perm_swap. apply perm_skip. exact IH.
Qed.

Lemma sort_desc_perm (l : list (Archetype * Z)) :
  Permutation l (sort_desc l).
Proof.
  induction l as [|x l IH]; cbn [sort_desc fold_right]; [reflexivity|].
  rewrite <- insert_desc_perm. apply perm_skip. exact IH.
Qed.

Lemma insert_desc_sorted (x : Archetype * Z) (l : list (Archetype * Z)) :
  StronglySorted ge_score l -> StronglySorted ge_score (insert_desc x l).
Proof.
  induction l as [|y l IH]; intro Hs; cbn [insert_desc].
  - constructor; constructor.
  - inversion Hs as [|? ? Hl Hy]; subst.
    destruct (snd x <? snd y)%Z eqn:E.
    + apply Z.ltb_lt in E. constructor; [apply IH, Hl|].
      apply Forall_forall. intros z Hz.
      apply (Permutation_in _ (Permutation_sym (insert_desc_perm x l)))
        in Hz.
      destruct Hz as [<-|Hz].
      * unfold ge_score. lia.
      * apply (proj1 (Forall_forall _ _) Hy z Hz).
    + apply Z.ltb_ge in E. constructor; [exact Hs|].
      constructor; [exact E|].
      apply Forall_forall. intros z Hz.
      pose proof (proj1 (Forall_forall _ _) Hy z Hz) as Hzy.
      unfold ge_score in *. lia.
Qed.

Lemma sort_desc_sorted (l : list (Archetype * Z)) :
  StronglySorted ge_score (sort_desc l).
Proof.
  induction l as [|x l IH]; cbn [sort_desc fold_right].
  - constructor.
  - apply insert_desc_sorted. exact IH.
Qed.

Lemma insert_desc_withScore (k : Z) (x : Archetype * Z)
  (l : list (Archetype * Z)) :
  withScore k (insert_desc x l) = withScore k (x :: l).
Proof.
  unfold withScore.
  induction l as [|y l IH]; cbn [insert_desc]; [reflexivity|].
  destruct (snd x <? snd y)%Z eqn:E; [|reflexivity].
  apply Z.ltb_lt in E. cbn [filter] in *.
  rewrite IH.
  destruct (snd x =? k)%Z eqn:Ex, (snd y =? k)%Z eqn:Ey; try reflexivity.
  apply Z.eqb_eq in Ex, Ey. lia.
Qed.

(** X4: the sort of the entries is a stable sort by descending score:
    its result is a permutation of the entries, every entry is followed
    only by entries that score no more, and entries of equal score keep
    their order. *)
Theorem sort_desc_stable (l : list (Archetype * Z)) :
  Permutation l (sort_desc l) /\
  StronglySorted (fun x y => (snd y <= snd x)%Z) (sort_desc l) /\
  forall k, withScore k (sort_desc l) = withScore k l.
Proof.
  split; [apply sort_desc_perm|]. split; [apply sort_desc_sorted|].
  intro k. induction l as [|x l IH]; [reflexivity|].
  cbn [sort_desc fold_right]. rewrite insert_desc_withScore.
  unfold withScore in *. cbn [filter]. fold (sort_desc l). rewrite IH.
  reflexivity.
Qed.

(** *** The dominant archetype *)

Lemma Archetype_eqb_eq (a b : Archetype) :
  Archetype_eqb a b = true <-> a = b.
Proof.
  split; [|intros ->; destruct b; reflexivity].
  destruct a, b; intro H; try reflexivity; discriminate H.
Qed.

Lemma scoreOf_in (a : Archetype) (s : Z) (l : list (Archetype * Z)) :
  NoDup (map fst l) -> In (a, s) l -> scoreOf a l = s.
Proof.
  induction l as [|[b t] l IH]; intros Hnd Hin; [contradiction|].
  cbn [map fst] in Hnd. inversion Hnd as [|? ? Hb Hl]; subst.
  cbn [scoreOf]. destruct Hin as [E|Hin].
  - inversion E; subst.
    rewrite (proj2 (Archetype_eqb_eq a a) eq_refl). reflexivity.
  - destruct (Archetype_eqb a b) eqn:E.
    + apply Archetype_eqb_eq in E. subst b. exfalso. apply Hb.
      change a with (fst (a, s)). apply in_map. exact Hin.
    + apply IH; assumption.
Qed.

Lemma archetypeScores_labels (r : Rates) (m : Metrics) :
  NoDup (map fst (archetypeScores r m)).
Proof.
  cbn. repeat constructor; cbn; intuition discriminate.
Qed.

Lemma pts_range (c : bool) (p : Z) : (0 <= p -> 0 <= pts c p <= p)%Z.
Proof. unfold pts. destruct c; lia. Qed.

Lemma archetypeScores_range (r : Rates) (m : Metrics) (a : Archetype)
  (s : Z) :
  In (a, s) (archetypeScores r m) -> (0 <= s <= 50)%Z.
Proof.
  unfold archetypeScores. cbn [In].
  intros [E|[E|[E|[E|[E|[]]]]]]; inversion E; subst; clear E;
    repeat match goal with
    | |- context [pts ?c ?p] =>
        let H := fresh "P" in
        pose proof (pts_range c p ltac:(lia)) as H;
        generalize dependent (pts c p); intros
    end; lia.
Qed.

Lemma scoreOf_archetypeScores (r : Rates) (m : Metrics) (a : Archetype) :
  In (a, scoreOf a (archetypeScores r m)) (archetypeScores r m).
Proof.
  destruct a; cbn; tauto.
Qed.

Lemma topScore_max (r : Rates) (m : Metrics) :
  (0 <= topScore r m <= 50)%Z /\
  forall a, (scoreOf a (archetypeScores r m) <= topScore r m)%Z.
Proof.
  unfold topScore.
  pose proof (sort_desc_perm (archetypeScores r m)) as Hp.
  pose proof (sort_desc_sorted (archetypeScores r m)) as Hs.
  destruct (sort_desc (archetypeScores r m)) as [|[a0 s0] rest] eqn:E.
  - apply Permutation_sym, Permutation_nil in Hp. discriminate Hp.
  - split.
    + apply (archetypeScores_range r m a0).
      apply (Permutation_in _ (Permutation_sym Hp)). left. reflexivity.
    + intro a.
      pose proof (Permutation_in _ Hp (scoreOf_archetypeScores r m a))
        as [Hin|Hin].
      * injection Hin as _ Hs0. rewrite Hs0. apply Z.le_refl.
      * inversion Hs as [|? ? _ Hall]; subst.
        apply (proj1 (Forall_forall _ _) Hall _ Hin).
Qed.

Lemma topScore_attained (r : Rates) (m : Metrics) :
  exists a, scoreOf a (archetypeScores r m) = topScore r m.
Proof.
  unfold topScore.
  pose proof (sort_desc_perm (archetypeScores r m)) as Hp.
  destruct (sort_desc (archetypeScores r m)) as [|[a0 s0] rest] eqn:E.
  - apply Permutation_sym, Permutation_nil in Hp. discriminate Hp.
  - exists a0. apply scoreOf_in; [apply archetypeScores_labels|].
    apply (Permutation_in _ (Permutation_sym Hp)). left. reflexivity.
Qed.

(** X5: the top score is the maximum of the five scores: it is the
    score of one of the archetypes, no archetype scores more, and it
    lies between 0 and 50. *)
Theorem topScore_is_max (r : Rates) (m : Metrics) :
  (exists a, scoreOf a (archetypeScores r m) = topScore r m) /\
  (forall a, (scoreOf a (archetypeScores r m) <= topScore r m)%Z) /\
  (0 <= topScore r m <= 50)%Z.
Proof.
  destruct (topScore_max r m) as [Hr Hm].
  split; [apply topScore_attained|]. split; [exact Hm | exact Hr].
Qed.

Lemma dominant_attains_top (r : Rates) (m : Metrics) :
  (0 < topScore r m)%Z ->
  scoreOf (dominant r m) (archetypeScores r m) = topScore r m.
Proof.
  unfold topScore, dominant. intro Hpos.
  pose proof (sort_desc_perm (archetypeScores r m)) as Hp.
  destruct (sort_desc (archetypeScores r m)) as [|[a0 s0] rest] eqn:E;
    [lia|].
  rewrite (proj2 (Z.ltb_lt 0 s0) Hpos).
  apply scoreOf_in; [apply archetypeScores_labels|].
  apply (Permutation_in _ (Permutation_sym Hp)).
  destruct rest as [|[a1 s1] rest]; [left; reflexivity|].
  destruct (s0 =? s1)%Z eqn:Es; [|left; reflexivity].
  apply Z.eqb_eq in Es. subst s1.
  destruct (Archetype_eqb a1 Impulsive && Qgtb (avgVelocity r) 1) eqn:E1.
  - apply andb_prop in E1. destruct E1 as [E1 _].
    apply Archetype_eqb_eq in E1. subst a1. right. left. reflexivity.
  - destruct (Archetype_eqb a1 Analytical && Qgtb (avgIdleGap r) 2000)
      eqn:E2.
    + apply andb_prop in E2. destruct E2 as [E2 _].
      apply Archetype_eqb_eq in E2. subst a1. right. left. reflexivity.
    + left. reflexivity.
Qed.

(** X6: when some rule has fired, the dominant archetype is one that
    reaches the top score; the tie-break only ever moves between
    archetypes of equal score. *)
Theorem dominant_has_topScore (r : Rates) (m : Metrics) :
  (0 < topScore r m)%Z ->
  scoreOf (dominant r m) (archetypeScores r m) = topScore r m.
Proof. apply dominant_attains_top. Qed.

Lemma dominant_has_topScore_witness :
  let s := sessionWith scenarioC (Some 1000) in
  let r := rates (durationSec 31000 s) (metrics s) in
  scoreOf (dominant r (metrics s)) (archetypeScores r (metrics s))
  = topScore r (metrics s).
Proof.
  intros s r. apply dominant_has_topScore. reflexivity.
Defined.

(** X7: a session with fewer than five keystrokes and fewer than five
    scroll events scores at least 20 (the second Observer rule), so the
    zero-score branch is never taken for it. *)
Theorem quiet_session_scores (r : Rates) (m : Metrics) :
  (keystrokes m < 5)%N -> (scrollCount m < 5)%N ->
  (20 <= topScore r m)%Z /\
  scoreOf (dominant r m) (archetypeScores r m) = topScore r m.
Proof.
  intros Hk Hs.
  assert (H20 : (20 <= topScore r m)%Z).
  { pose proof (proj2 (topScore_max r m) Observer) as H.
    cbn [scoreOf archetypeScores Archetype_eqb] in H.
    rewrite (proj2 (N.ltb_lt _ _) Hk), (proj2 (N.ltb_lt _ _) Hs) in H.
    cbn [andb pts] in H.
    pose proof (pts_range
                  (Qltb (mouseDistance m) 600 && (clickCount m <? 3)%N) 30
                  ltac:(lia)).
    lia. }
  split; [exact H20|].
  apply dominant_attains_top. lia.
Qed.

Lemma quiet_session_scores_witness :
  let s := sessionWith scenarioC (Some 1000) in
  let r := rates (durationSec 31000 s) (metrics s) in
  (20 <= topScore r (metrics s))%Z /\
  scoreOf (dominant r (metrics s)) (archetypeScores r (metrics s))
  = topScore r (metrics s).
Proof.
  intros s r. apply quiet_session_scores; reflexivity.
Defined.

(** The sort of five entries of which the first scores highest. *)
Lemma sort_five_first (i a p o r : Z) :
  (a <= i)%Z -> (p <= i)%Z -> (o <= i)%Z -> (r <= i)%Z ->
  exists a1 s1 rest,
    sort_desc [ (Impulsive, i); (Analytical, a); (Perfectionist, p);
                (Observer, o); (Restless, r) ]
    = (Impulsive, i) :: (a1, s1) :: rest /\
    a1 <> Impulsive /\ (a1 = Analytical -> s1 = a) /\
    (a <= s1 <= i)%Z /\ (a = s1 -> a1 = Analytical).
Proof.
  intros Ha Hp Ho Hr. unfold sort_desc. cbn [fold_right insert_desc snd].
  repeat match goal with
         | |- context [(?x <? ?y)%Z] =>
             destruct (Z.ltb_spec x y); cbn [insert_desc snd]
         end;
    try lia;
    do 3 eexists; (split; [reflexivity|]);
    repeat split; try discriminate; try lia; try congruence;
    intros; try reflexivity; try lia.
Qed.

(** X8: when Impulsive reaches the top score it is the dominant
    archetype, whatever else ties with it, except that Analytical takes
    a tie when [avgIdleGap > 2000].  (The entries keep their order, so
    Impulsive is never the runner-up of a tie, and its own tie-break on
    [avgVelocity > 1] decides nothing.) *)
Theorem impulsive_at_top (r : Rates) (m : Metrics) :
  (0 < topScore r m)%Z ->
  scoreOf Impulsive (archetypeScores r m) = topScore r m ->
  dominant r m =
  if (scoreOf Analytical (archetypeScores r m) =? topScore r m)%Z
     && Qgtb (avgIdleGap r) 2000
  then Analytical else Impulsive.
Proof.
  intros Hpos Htop.
  pose proof (proj2 (topScore_max r m)) as Hmax.
  pose proof (Hmax Analytical) as Ha. pose proof (Hmax Perfectionist) as Hp.
  pose proof (Hmax Observer) as Ho. pose proof (Hmax Restless) as Hr.
  rewrite <- Htop in Ha, Hp, Ho, Hr, Hpos |- *. clear Hmax Htop.
  unfold dominant. unfold archetypeScores in *.
  cbn [scoreOf Archetype_eqb] in *.
  match goal with
  | |- context [sort_desc [ (Impulsive, ?x1); (Analytical, ?x2);
                            (Perfectionist, ?x3); (Observer, ?x4);
                            (Restless, ?x5) ]] =>
      remember x1 as i eqn:Ei; remember x2 as a eqn:Ea;
      remember x3 as p eqn:Ep; remember x4 as o eqn:Eo;
      remember x5 as q eqn:Eq
  end.
  clear Ei Ea Ep Eo Eq.
  destruct (sort_five_first i a p o q Ha Hp Ho Hr)
    as (a1 & s1 & rest & E & Hn & Hs & Hle & Heq).
  rewrite E.
  rewrite (proj2 (Z.ltb_lt _ _) Hpos).
  replace (Archetype_eqb a1 Impulsive) with false
    by (symmetry; destruct a1; try reflexivity; contradiction).
  cbn [andb].
  destruct (i =? s1)%Z eqn:Es.
  - apply Z.eqb_eq in Es. subst s1.
    destruct (Archetype_eqb a1 Analytical) eqn:E1.
    + apply Archetype_eqb_eq in E1.
      rewrite (Hs E1), Z.eqb_refl. reflexivity.
    + replace (a =? i)%Z with false; [reflexivity|].
      symmetry. apply Z.eqb_neq. intro Hai.
      rewrite (Heq Hai) in E1. discriminate E1.
  - apply Z.eqb_neq in Es.
    replace (a =? i)%Z with false; [reflexivity|].
    symmetry. apply Z.eqb_neq. lia.
Qed.

Lemma impulsive_at_top_witness :
  let m := set_maxVelocity 4
             (set_keystrokes 10 (set_jitterCount 50 (newMetrics 0))) in
  let r := rates 30 m in
  scoreOf Impulsive (archetypeScores r m) = 30%Z /\
  scoreOf Observer (archetypeScores r m) = 30%Z /\
  dominant r m = Impulsive.
Proof.
  intros m r. split; [reflexivity|]. split; [reflexivity|].
  rewrite (impulsive_at_top r m); reflexivity.
Defined.

(** ** Further properties of the recorders *)

Lemma guard_open (a : App) :
  isObserving (state a) = true -> hidden (state a) = false ->
  isDestroyed a = false ->
  negb (isObserving (state a)) || hidden (state a) || isDestroyed a = false.
Proof. intros -> -> ->. reflexivity. Qed.

(** The metrics after a pointer sample: the activity stamps are set,
    and either nothing else changes or one sample is accumulated. *)
Lemma handleMouseMove_metrics (Math_sqrt : Q -> Q) (e : MouseEvent)
  (clock : Q) (a : App) :
  isObserving (state a) = true -> hidden (state a) = false ->
  isDestroyed a = false ->
  let now := or_else (timeStamp e) clock in
  let m := metrics (state a) in
  let m1 :=
    if truthy (firstActivityTime m) then m
    else set_firstActivityTime (Some now) m in
  let lm := lastMouse a in
  let dt := now - lm_time lm in
  let dx := clientX e - lm_x lm in
  let dy := clientY e - lm_y lm in
  let distance := Math_sqrt (dx * dx + dy * dy) in
  metrics (state (handleMouseMove Math_sqrt e clock a)) =
  set_lastActivityTime now
    (if truthyQ (lm_time lm) && Qgtb dt 16 && Qgtb distance 0
     then sampleMetrics Math_sqrt lm dt distance (dx / dt) (dy / dt) m1
     else m1).
Proof.
  intros Ho Hh Hd now m m1 lm dt dx dy distance.
  unfold handleMouseMove. rewrite (guard_open a Ho Hh Hd).
  fold now. fold m. subst m1.
  destruct (truthy (firstActivityTime m)); cbn [negb];
    cbn [upd_metrics set_state state lastMouse set_metrics metrics];
    fold lm; fold dt; fold dx; fold dy; fold distance;
    destruct (truthyQ (lm_time lm)); cbn [andb]; try reflexivity;
    destruct (Qgtb dt 16); cbn [andb]; try reflexivity;
    destruct (Qgtb distance 0); reflexivity.
Qed.

Lemma sampleMetrics_counts (Math_sqrt : Q -> Q) (lm : LastMouse)
  (dt distance vx vy : Q) (m : Metrics) :
  let m' := sampleMetrics Math_sqrt lm dt distance vx vy m in
  mouseDistance m' = mouseDistance m + distance /\
  velocitySum m' = velocitySum m + Math_sqrt (vx * vx + vy * vy) /\
  velocityCount m' = (velocityCount m + 1)%N /\
  maxVelocity m <= maxVelocity m' /\
  (jitterCount m <= jitterCount m' <= jitterCount m + 1)%N /\
  (directionChanges m <= directionChanges m'
   <= directionChanges m + 1)%N /\
  scrollCount m' = scrollCount m /\ clickCount m' = clickCount m /\
  keystrokes m' = keystrokes m /\ backspaces m' = backspaces m /\
  idleTime m' = idleTime m /\
  firstActivityTime m' = firstActivityTime m /\
  maxScrollVelocity m' = maxScrollVelocity m.
Proof.
  unfold sampleMetrics. cbn [isFinite andb].
  set (velocity := Math_sqrt (vx * vx + vy * vy)).
  cbn [set_mouseDistance set_velocitySum set_velocityCount mouseDistance
       velocitySum velocityCount maxVelocity jitterCount].
  destruct (Qgtb velocity (maxVelocity m)) eqn:Ev;
    destruct (Qltb distance 5 && Qltb dt 50);
    destruct (negb (Qeq_bool (lm_vx lm) 0) || negb (Qeq_bool (lm_vy lm) 0));
    try destruct (Qltb (vx * lm_vx lm + vy * lm_vy lm) 0
                  && Qgtb velocity (3 # 10));
    cbn; unfold incr;
    try (apply Qgtb_gt in Ev); 
    repeat split; try reflexivity; try lia; try lra.
Qed.

(** What one accumulated sample adds, field by field. *)
Lemma sampleMetrics_exact (Math_sqrt : Q -> Q) (lm : LastMouse)
  (dt distance vx vy : Q) (m : Metrics) :
  let velocity := Math_sqrt (vx * vx + vy * vy) in
  let m' := sampleMetrics Math_sqrt lm dt distance vx vy m in
  maxVelocity m'
  = (if Qgtb velocity (maxVelocity m) then velocity else maxVelocity m) /\
  jitterCount m'
  = (if Qltb distance 5 && Qltb dt 50
     then (jitterCount m + 1)%N else jitterCount m) /\
  directionChanges m'
  = (if (negb (Qeq_bool (lm_vx lm) 0) || negb (Qeq_bool (lm_vy lm) 0))
        && (Qltb (vx * lm_vx lm + vy * lm_vy lm) 0
            && Qgtb velocity (3 # 10))
     then (directionChanges m + 1)%N else directionChanges m).
Proof.
  unfold sampleMetrics. cbn [isFinite andb].
  set (velocity := Math_sqrt (vx * vx + vy * vy)).
  cbn [set_mouseDistance set_velocitySum set_velocityCount mouseDistance
       velocitySum velocityCount maxVelocity jitterCount].
  destruct (Qgtb velocity (maxVelocity m));
    destruct (Qltb distance 5 && Qltb dt 50);
    destruct (negb (Qeq_bool (lm_vx lm) 0) || negb (Qeq_bool (lm_vy lm) 0));
    try destruct (Qltb (vx * lm_vx lm + vy * lm_vy lm) 0
                  && Qgtb velocity (3 # 10));
    repeat split.
Qed.

(** X9: the accounting of a pointer sample in an observed, visible
    session.  Measured from the previous sample of the stroke, with
    [dt] the time since it, [distance] the length of the move and
    [velocity = sqrt((dx/dt)^2 + (dy/dt)^2)]: when there is no previous
    sample, or [dt <= 16], or [distance] is not positive, the six
    pointer fields stay; otherwise [velocityCount] grows by one,
    [mouseDistance] by [distance], [velocitySum] by [velocity],
    [maxVelocity] becomes the larger of itself and [velocity],
    [jitterCount] grows by one exactly when [distance < 5] and
    [dt < 50], and [directionChanges] by one exactly when the previous
    velocity is not zero, points against the new one and
    [velocity > 0.3].  No other counter moves, and the activity stamps
    are set. *)
Theorem pointer_sample_accounting (Math_sqrt : Q -> Q) (e : MouseEvent)
  (clock : Q) (a : App) :
  isObserving (state a) = true -> hidden (state a) = false ->
  isDestroyed a = false ->
  let now := or_else (timeStamp e) clock in
  let lm := lastMouse a in
  let dt := now - lm_time lm in
  let dx := clientX e - lm_x lm in
  let dy := clientY e - lm_y lm in
  let distance := Math_sqrt (dx * dx + dy * dy) in
  let velocity := Math_sqrt (dx / dt * (dx / dt) + dy / dt * (dy / dt)) in
  let m := metrics (state a) in
  let m' := metrics (state (handleMouseMove Math_sqrt e clock a)) in
  (truthyQ (lm_time lm) && Qgtb dt 16 && Qgtb distance 0 = false ->
   velocityCount m' = velocityCount m /\
   mouseDistance m' = mouseDistance m /\
   velocitySum m' = velocitySum m /\ maxVelocity m' = maxVelocity m /\
   jitterCount m' = jitterCount m /\
   directionChanges m' = directionChanges m) /\
  (truthyQ (lm_time lm) && Qgtb dt 16 && Qgtb distance 0 = true ->
   velocityCount m' = (velocityCount m + 1)%N /\
   mouseDistance m' = mouseDistance m + distance /\
   velocitySum m' = velocitySum m + velocity /\
   maxVelocity m'
   = (if Qgtb velocity (maxVelocity m) then velocity else maxVelocity m) /\
   jitterCount m'
   = (if Qltb distance 5 && Qltb dt 50
      then (jitterCount m + 1)%N else jitterCount m) /\
   directionChanges m'
   = (if (negb (Qeq_bool (lm_vx lm) 0) || negb (Qeq_bool (lm_vy lm) 0))
         && (Qltb (dx / dt * lm_vx lm + dy / dt * lm_vy lm) 0
             && Qgtb velocity (3 # 10))
      then (directionChanges m + 1)%N else directionChanges m)) /\
  scrollCount m' = scrollCount m /\ clickCount m' = clickCount m /\
  keystrokes m' = keystrokes m /\ backspaces m' = backspaces m /\
  idleTime m' = idleTime m /\
  maxScrollVelocity m' = maxScrollVelocity m /\
  lastActivityTime m' = now /\
  firstActivityTime m'
  = (if truthy (firstActivityTime m) then firstActivityTime m
     else Some now).
Proof.
  intros Ho Hh Hd now lm dt dx dy distance velocity m m'. subst m'.
  rewrite (handleMouseMove_metrics Math_sqrt e clock a Ho Hh Hd).
  fold now m lm dt dx dy distance.
  set (m1 := if truthy (firstActivityTime m) then m
             else set_firstActivityTime (Some now) m).
  assert (E1 : mouseDistance m1 = mouseDistance m /\
               velocitySum m1 = velocitySum m /\
               velocityCount m1 = velocityCount m /\
               maxVelocity m1 = maxVelocity m /\
               jitterCount m1 = jitterCount m /\
               directionChanges m1 = directionChanges m /\
               scrollCount m1 = scrollCount m /\
               clickCount m1 = clickCount m /\
               keystrokes m1 = keystrokes m /\
               backspaces m1 = backspaces m /\
               idleTime m1 = idleTime m /\
               maxScrollVelocity m1 = maxScrollVelocity m /\
               firstActivityTime m1
               = (if truthy (firstActivityTime m) then firstActivityTime m
                  else Some now)).
  { unfold m1. destruct (truthy (firstActivityTime m));
      repeat split; reflexivity. }
  destruct E1 as (D1 & D2 & D3 & D4 & D5 & D6 & D7 & D8 & D9 & D10 & D11
                  & D12 & D13).
  destruct (sampleMetrics_counts Math_sqrt lm dt distance (dx / dt)
              (dy / dt) m1)
    as (S1 & S2 & S3 & _ & _ & _ & S7 & S8 & S9 & S10 & S11 & S12 & S13).
  destruct (sampleMetrics_exact Math_sqrt lm dt distance (dx / dt)
              (dy / dt) m1) as (X1 & X2 & X3).
  fold velocity in S2, X1, X3.
  rewrite D4 in X1. rewrite D5 in X2. rewrite D6 in X3.
  destruct (truthyQ (lm_time lm) && Qgtb dt 16 && Qgtb distance 0) eqn:C;
    cbn [set_lastActivityTime mouseDistance velocitySum velocityCount
         maxVelocity jitterCount directionChanges scrollCount clickCount
         keystrokes backspaces idleTime maxScrollVelocity
         lastActivityTime firstActivityTime].
  - split; [intro F; discriminate F|].
    split.
    + intros _. rewrite S1, S2, S3, D1, D2, D3.
      repeat split; assumption.
    + rewrite S7, S8, S9, S10, S11, S12, S13.
      repeat split; assumption.
  - split; [intros _; repeat split; assumption|].
    split; [intro F; discriminate F|].
    repeat split; assumption.
Qed.

(** The second sample of a stroke, 100ms after the first and 50 pixels
    away: one sample of length 50 and speed 0.5 is accumulated. *)
Lemma pointer_sample_accounting_witness :
  let a :=
    handleMouseMove sqrtOfSquare (mkMouseEvent 10 20 1100) 1100
      (observingAt 1000) in
  let e := mkMouseEvent 40 60 1200 in
  let m := metrics (state a) in
  let m' := metrics (state (handleMouseMove sqrtOfSquare e 1200 a)) in
  velocityCount m = 0%N /\ velocityCount m' = (velocityCount m + 1)%N /\
  mouseDistance m' == 50 /\ velocitySum m' == 1 # 2 /\
  maxVelocity m' == 1 # 2.
Proof.
  intros a e m m'.
  destruct (pointer_sample_accounting sqrtOfSquare e 1200 a)
    as (_ & Acc & _);
    [vm_compute; reflexivity | vm_compute; reflexivity
    | vm_compute; reflexivity |].
  destruct Acc as (A1 & A2 & A3 & A4 & _); [vm_compute; reflexivity|].
  fold m m' in A1, A2, A3, A4.
  split; [vm_compute; reflexivity|]. split; [exact A1|].
  split; [rewrite A2|split; [rewrite A3|rewrite A4]];
    vm_compute; reflexivity.
Defined.

Lemma sample_without_stroke_aux (Math_sqrt : Q -> Q) (e : MouseEvent)
  (clock : Q) (a : App) :
  isObserving (state a) = true -> hidden (state a) = false ->
  isDestroyed a = false ->
  let now := or_else (timeStamp e) clock in
  truthyQ (lm_time (lastMouse a)) = false \/
  now - lm_time (lastMouse a) <= 16 ->
  let a' := handleMouseMove Math_sqrt e clock a in
  let m := metrics (state a) in
  metrics (state a') =
  set_lastActivityTime now
    (if truthy (firstActivityTime m) then m
     else set_firstActivityTime (Some now) m) /\
  lastMouse a' =
  mkLastMouse (clientX e) (clientY e) now
    (lm_vx (lastMouse a)) (lm_vy (lastMouse a)).
Proof.
  intros Ho Hh Hd now Hs a' m. subst a'.
  assert (C : truthyQ (lm_time (lastMouse a))
              && Qgtb (now - lm_time (lastMouse a)) 16 = false).
  { destruct Hs as [Hs|Hs].
    - rewrite Hs. reflexivity.
    - rewrite (proj2 (Qgtb_le _ _) Hs). apply andb_false_r. }
  split.
  - rewrite (handleMouseMove_metrics Math_sqrt e clock a Ho Hh Hd).
    fold now. rewrite C. reflexivity.
  - unfold handleMouseMove. rewrite (guard_open a Ho Hh Hd). fold now.
    destruct (truthy (firstActivityTime (metrics (state a))));
      cbn [negb upd_metrics set_state state lastMouse set_metrics metrics];
      destruct (truthyQ (lm_time (lastMouse a))); cbn [andb] in C;
      try reflexivity; fold now; rewrite C; reflexivity.
Qed.

(** X10: a pointer sample that has no earlier sample to measure from,
    or that comes 16ms or less after it, accumulates nothing, yet it
    becomes the sample the next one is measured from: the movement it
    made is not counted later either. *)
Theorem sample_without_stroke (Math_sqrt : Q -> Q) (e : MouseEvent)
  (clock : Q) (a : App) :
  isObserving (state a) = true -> hidden (state a) = false ->
  isDestroyed a = false ->
  let now := or_else (timeStamp e) clock in
  truthyQ (lm_time (lastMouse a)) = false \/
  now - lm_time (lastMouse a) <= 16 ->
  let a' := handleMouseMove Math_sqrt e clock a in
  let m := metrics (state a) in
  metrics (state a') =
  set_lastActivityTime now
    (if truthy (firstActivityTime m) then m
     else set_firstActivityTime (Some now) m) /\
  lastMouse a' =
  mkLastMouse (clientX e) (clientY e) now
    (lm_vx (lastMouse a)) (lm_vy (lastMouse a)).
Proof. apply sample_without_stroke_aux. Qed.

Lemma sample_without_stroke_witness :
  let a := observingAt 1000 in
  let e := mkMouseEvent 10 20 1100 in
  let now := or_else (timeStamp e) 1100 in
  let a' := handleMouseMove (fun q => q) e 1100 a in
  let m := metrics (state a) in
  metrics (state a') =
  set_lastActivityTime now
    (if truthy (firstActivityTime m) then m
     else set_firstActivityTime (Some now) m) /\
  lastMouse a' =
  mkLastMouse (clientX e) (clientY e) now
    (lm_vx (lastMouse a)) (lm_vy (lastMouse a)).
Proof.
  intros a e.
  apply (sample_without_stroke (fun q => q) e 1100 a);
    try (vm_compute; reflexivity).
  left. vm_compute. reflexivity.
Defined.

Lemma first_sample_after_endTouch (Math_sqrt : Q -> Q) (e : MouseEvent)
  (clock : Q) (a : App) :
  isObserving (state a) = true -> hidden (state a) = false ->
  isDestroyed a = false ->
  let a' := handleMouseMove Math_sqrt e clock (endTouch a) in
  mouseDistance (metrics (state a')) = mouseDistance (metrics (state a)) /\
  velocityCount (metrics (state a')) = velocityCount (metrics (state a)) /\
  directionChanges (metrics (state a'))
  = directionChanges (metrics (state a)).
Proof.
  intros Ho Hh Hd a'. subst a'.
  assert (H : truthyQ (lm_time (lastMouse (endTouch a))) = false \/
              or_else (timeStamp e) clock - lm_time (lastMouse (endTouch a))
              <= 16) by (left; reflexivity).
  destruct (sample_without_stroke_aux Math_sqrt e clock (endTouch a)
              Ho Hh Hd H) as [Em _].
  rewrite Em. cbn [endTouch set_lastMouse state metrics].
  destruct (truthy (firstActivityTime (metrics (state a))));
    repeat split; reflexivity.
Qed.

(** X11: lifting the finger ends the stroke: whatever the positions,
    the first touch after [endTouch] adds no distance, no velocity
    sample and no direction change; and a touch event that carries no
    touch changes nothing. *)
Theorem touch_end_breaks_stroke (Math_sqrt : Q -> Q) (e : TouchEvent)
  (now : Q) (pg : Page) :
  isObserving (state (app pg)) = true -> hidden (state (app pg)) = false ->
  isDestroyed (app pg) = false ->
  let lifted :=
    mkPage (endTouch (app pg)) (mouseThrottle pg) (scrollThrottle pg)
      (wheelThrottle pg) in
  let m := metrics (state (app pg)) in
  let m' := metrics (state (app (handleTouch Math_sqrt e now lifted))) in
  (mouseDistance m' = mouseDistance m /\
   velocityCount m' = velocityCount m /\
   directionChanges m' = directionChanges m) /\
  (touches e = [] -> handleTouch Math_sqrt e now pg = pg).
Proof.
  intros Ho Hh Hd lifted m m'. subst m m'. split.
  - unfold handleTouch, lifted. cbn [app].
    change (state (endTouch (app pg))) with (state (app pg)).
    change (isDestroyed (endTouch (app pg))) with (isDestroyed (app pg)).
    rewrite (guard_open (app pg) Ho Hh Hd).
    destruct (touches e) as [|[x y] rest]; [repeat split|].
    cbn [dispatch throttle app mouseThrottle].
    destruct (mouseThrottle pg); cbn [app]; [repeat split|].
    apply first_sample_after_endTouch; assumption.
  - intro Ht. unfold handleTouch. rewrite Ht.
    destruct (negb (isObserving (state (app pg))) || hidden (state (app pg))
              || isDestroyed (app pg)); reflexivity.
Qed.

Lemma touch_end_breaks_stroke_witness :
  let pg := freshPage (observingAt 1000) in
  let e := mkTouchEvent [(300, 400)] 1200 in
  let lifted :=
    mkPage (endTouch (app pg)) (mouseThrottle pg) (scrollThrottle pg)
      (wheelThrottle pg) in
  let m := metrics (state (app pg)) in
  let m' :=
    metrics (state (app (handleTouch (fun q => q) e 1200 lifted))) in
  (mouseDistance m' = mouseDistance m /\
   velocityCount m' = velocityCount m /\
   directionChanges m' = directionChanges m) /\
  (touches e = [] -> handleTouch (fun q => q) e 1200 pg = pg).
Proof.
  intros pg e.
  apply (touch_end_breaks_stroke (fun q => q) e 1200 pg);
    vm_compute; reflexivity.
Defined.

(** X12: only a pointer sample sets [firstActivityTime], and only while
    it is unset: every other recorder leaves it alone, and once set it
    is kept by all of them. *)
Theorem firstActivityTime_kept (Math_sqrt : Q -> Q) (op : RecorderOp)
  (now : Q) (a : App) :
  isPointerSample op = false \/
  truthy (firstActivityTime (metrics (state a))) = true ->
  firstActivityTime (metrics (state (recorder Math_sqrt op now a)))
  = firstActivityTime (metrics (state a)).
Proof.
  intro H. destruct op as [e| |e|e|e]; cbn [recorder isPointerSample] in *.
  - destruct H as [H|H]; [discriminate H|].
    destruct (negb (isObserving (state a)) || hidden (state a)
              || isDestroyed a) eqn:G.
    + unfold handleMouseMove. rewrite G. reflexivity.
    + apply orb_false_elim in G. destruct G as [G Gd].
      apply orb_false_elim in G. destruct G as [Go Gh].
      apply negb_false_iff in Go.
      rewrite (handleMouseMove_metrics Math_sqrt e now a Go Gh Gd).
      rewrite H. cbn [set_lastActivityTime firstActivityTime].
      match goal with
      | |- context [if ?c then _ else _] => destruct c
      end; [|reflexivity].
      match goal with
      | |- context [sampleMetrics ?f ?lm ?dt ?d ?vx ?vy ?m] =>
          apply (sampleMetrics_counts f lm dt d vx vy m)
      end.
  - unfold handleScroll.
    destruct (negb (isObserving (state a)) || hidden (state a)
              || isDestroyed a); reflexivity.
  - unfold handleWheel.
    destruct (negb (isObserving (state a)) || hidden (state a)
              || isDestroyed a); [reflexivity|].
    destruct (Math_abs (deltaY e)); try reflexivity.
    destruct (Qgtb q (maxScrollVelocity (metrics (state a)))); reflexivity.
  - unfold handleClick.
    destruct (negb (isObserving (state a)) || hidden (state a)
              || isDestroyed a); [reflexivity|].
    destruct (onSoundToggle e); reflexivity.
  - unfold handleKeyDown_recorder.
    destruct (negb (isObserving (state a)) || isDestroyed a);
      [reflexivity|].
    destruct (isComposing a || String.eqb (key e) "Dead"
              || ev_isComposing e); [reflexivity|].
    destruct (String.eqb (key e) "Backspace"); [reflexivity|].
    destruct (printable e); reflexivity.
Qed.

Lemma firstActivityTime_kept_witness :
  let a := observingAt 1000 in
  let op := RecordClick (mkClickEvent false) in
  firstActivityTime (metrics (state (recorder (fun q => q) op 1500 a)))
  = firstActivityTime (metrics (state a)).
Proof.
  intros a op. apply (firstActivityTime_kept (fun q => q) op 1500 a).
  left. reflexivity.
Defined.

(** X13: a wheel event of an observed, visible session changes nothing
    but [maxScrollVelocity], which it raises to [|deltaY|] when that is
    finite and larger; it never lowers it, stamps no activity and
    counts no scroll.  A [deltaY] that is [NaN] or infinite changes
    nothing at all. *)
Theorem wheel_keeps_peak (e : WheelEvent) (a : App) :
  let m := metrics (state a) in
  let a' := handleWheel e a in
  let m' := metrics (state a') in
  m' = set_maxScrollVelocity (maxScrollVelocity m') m /\
  maxScrollVelocity m <= maxScrollVelocity m' /\
  (isFinite (deltaY e) = false -> a' = a) /\
  (forall v, deltaY e = Fin v ->
     negb (isObserving (state a)) || hidden (state a) || isDestroyed a
     = false ->
     Qabs v <= maxScrollVelocity m' /\
     (maxScrollVelocity m' = maxScrollVelocity m \/
      maxScrollVelocity m' = Qabs v)).
Proof.
  intros m a' m'. subst a' m'. unfold handleWheel.
  assert (Same : m = set_maxScrollVelocity (maxScrollVelocity m) m)
    by (destruct m; reflexivity).
  destruct (negb (isObserving (state a)) || hidden (state a)
            || isDestroyed a) eqn:G.
  { fold m. split; [exact Same|]. split; [apply Qle_refl|].
    split; [reflexivity|]. intros w _ Hg. discriminate Hg. }
  destruct (deltaY e) as [ | | |v] eqn:Ed; cbn [Math_abs isFinite].
  1-3: fold m; (split; [exact Same|]); (split; [apply Qle_refl|]);
    (split; [reflexivity|]); intros w Hw; discriminate Hw.
  fold m.
  destruct (Qgtb (Qabs v) (maxScrollVelocity m)) eqn:C.
  - apply Qgtb_gt in C.
    cbn [upd_metrics set_state state set_metrics metrics
         set_maxScrollVelocity maxScrollVelocity].
    fold m. split; [reflexivity|]. split; [lra|].
    split; [intro Hf; discriminate Hf|].
    intros w Hw _. injection Hw as <-.
    split; [apply Qle_refl | right; reflexivity].
  - apply Qgtb_le in C. fold m.
    split; [exact Same|]. split; [apply Qle_refl|].
    split; [intro Hf; discriminate Hf|].
    intros w Hw _. injection Hw as <-.
    split; [exact C | left; reflexivity].
Qed.

(** X14: while a throttle is closed the event is dropped: of two
    pointer moves (or two scrolls, or two wheel events) with no release
    of the throttle between them, the second changes nothing, whatever
    the first one did. *)
Theorem throttled_event_dropped (Math_sqrt : Q -> Q)
  (ev1 ev2 : InputEvent) (now1 now2 : Q) (pg : Page) :
  sameThrottle ev1 ev2 = true ->
  dispatch Math_sqrt ev2 now2 (dispatch Math_sqrt ev1 now1 pg)
  = dispatch Math_sqrt ev1 now1 pg.
Proof.
  intro H.
  destruct ev1 as [e1| |e1|e1|f1 e1], ev2 as [e2| |e2|e2|f2 e2];
    try discriminate H; clear H; unfold dispatch, throttle.
  - destruct (mouseThrottle pg); reflexivity.
  - destruct (scrollThrottle pg); reflexivity.
  - destruct (wheelThrottle pg); reflexivity.
Qed.

Lemma throttled_event_dropped_witness :
  let pg := freshPage (observingAt 1000) in
  dispatch (fun q => q) ScrollEv 1520 (dispatch (fun q => q) ScrollEv 1500 pg)
  = dispatch (fun q => q) ScrollEv 1500 pg.
Proof.
  intro pg.
  apply (throttled_event_dropped (fun q => q) ScrollEv ScrollEv 1500 1520 pg).
  reflexivity.
Defined.

(** ** Further properties of the idle detector *)

(** X15: a poll changes no metric but [idleTime], and changes that one
    only by closing an open idle period that has lasted more than
    500ms, which it then adds in full. *)
Theorem checkIdle_commits (now : Q) (a : App) :
  let m := metrics (state a) in
  let a' := checkIdle now a in
  let m' := metrics (state a') in
  m' = set_idleTime (idleTime m') m /\
  (idleTime m' = idleTime m \/
   exists o, idleStart a = Some o /\ idleStart a' = None /\
             500 < now - o /\ idleTime m' = idleTime m + (now - o)).
Proof.
  intros m a' m'. subst a' m'. unfold checkIdle.
  destruct (negb (isObserving (state a)) || hidden (state a)
            || isDestroyed a).
  { fold m. split; [destruct m; reflexivity | left; reflexivity]. }
  fold m.
  destruct (truthy (idleStart a)
            && Qltb (now - lastActivityTime m) 100) eqn:C1.
  - destruct (Qgtb (now - to_num (idleStart a)) 500) eqn:C2.
    + apply andb_prop in C1. destruct C1 as [Ct _].
      destruct (idleStart a) as [o|] eqn:Eo; [|discriminate Ct].
      cbn [to_num] in *. apply Qgtb_gt in C2.
      cbn. fold m. split; [reflexivity|].
      right. exists o. repeat split. exact C2.
    + cbn. fold m. split; [destruct m; reflexivity | left; reflexivity].
  - destruct (negb (truthy (idleStart a))
              && Qgtb (now - lastActivityTime m) 400);
      cbn; fold m; (split; [destruct m; reflexivity | left; reflexivity]).
Qed.

Lemma wheel_keeps_peak_witness :
  let a := observingAt 1000 in
  let e := mkWheelEvent (Fin (-120)) in
  Qabs (-120) <= maxScrollVelocity (metrics (state (handleWheel e a))) /\
  (maxScrollVelocity (metrics (state (handleWheel e a)))
   = maxScrollVelocity (metrics (state a)) \/
   maxScrollVelocity (metrics (state (handleWheel e a))) = Qabs (-120)).
Proof.
  intros a e.
  apply (proj2 (proj2 (proj2 (wheel_keeps_peak e a))) (-120));
    vm_compute; reflexivity.
Defined.

(** One poll keeps the invariant of a gap of more than a second. *)
Lemma poll_keeps_longGap (t0 gap i0 p : Q) (act : Q -> Q) (a : App) :
  0 <= t0 -> 1000 < gap -> inactivityGap t0 gap act ->
  longGapInvariant t0 gap i0 p a ->
  longGapInvariant t0 gap i0 (p + 100) (pollAfterActivity act p a).
Proof.
  intros Ht0 Hgap [Hin Hout] (Ho & Hh & Hd & Hph).
  assert (Hlate : t0 + gap <= p -> Qltb (p - act p) 100 = true).
  { intro L. apply Qltb_lt. destruct (Hout p L). lra. }
  assert (Hlate4 : t0 + gap <= p -> Qgtb (p - act p) 400 = false).
  { intro L. apply Qgtb_le. destruct (Hout p L). lra. }
  unfold pollAfterActivity, handleBeforeInput. rewrite Ho. cbn [negb].
  unfold checkIdle.
  cbn [upd_metrics set_state state set_metrics isObserving hidden
       isDestroyed metrics set_lastActivityTime lastActivityTime idleStart].
  rewrite Ho, Hh, Hd. cbn [negb orb].
  destruct Hph as [(Hs & Hi & Hp) | [(o & Hs & Ho1 & Ho2 & Ho3 & Hi & Hp)
                                    | (Hs & Hp & Hlo & Hhi)]];
    rewrite Hs.
  - (* no period opened yet *)
    cbn [truthy andb negb to_num].
    rewrite (Hin p) by lra.
    destruct (Qgtb (p - t0) 400) eqn:E.
    + apply Qgtb_gt in E.
      unfold longGapInvariant. cbn. rewrite Ho, Hh, Hd.
      repeat split. right. left. exists p. rewrite Hi.
      repeat split; lra.
    + apply Qgtb_le in E.
      unfold longGapInvariant. cbn. rewrite Ho, Hh, Hd.
      repeat split. left. rewrite Hs, Hi. repeat split. lra.
  - (* a period is open *)
    cbn [truthy to_num]. rewrite (truthyQ_pos o) by lra.
    cbn [andb negb].
    destruct (Qlt_le_dec p (t0 + gap)) as [L|L].
    + rewrite (Hin p L).
      replace (Qltb (p - t0) 100) with false
        by (symmetry; apply Qltb_ge; lra).
      unfold longGapInvariant. cbn. rewrite Ho, Hh, Hd.
      repeat split. right. left. exists o. rewrite Hs, Hi.
      repeat split; lra.
    + rewrite (Hlate L).
      replace (Qgtb (p - o) 500) with true
        by (symmetry; apply Qgtb_gt; lra).
      unfold longGapInvariant. cbn. rewrite Ho, Hh, Hd.
      repeat split. right. right. rewrite Hi. repeat split; lra.
  - (* the period is closed *)
    cbn [truthy andb negb to_num].
    rewrite Hlate4 by lra.
    unfold longGapInvariant. cbn. rewrite Ho, Hh, Hd.
    repeat split. right. right. rewrite Hs. repeat split; lra.
Qed.

Lemma polls_keep_longGap (t0 gap i0 : Q) (act : Q -> Q) (n : nat) :
  0 <= t0 -> 1000 < gap -> inactivityGap t0 gap act ->
  forall (p : Q) (a : App),
    longGapInvariant t0 gap i0 p a ->
    longGapInvariant t0 gap i0 (p + 100 * inject_Z (Z.of_nat n))
      (runPolls act p n a).
Proof.
  intros Ht0 Hgap Hact. induction n as [|n IH]; intros p a Hinv.
  - cbn [runPolls]. change (inject_Z (Z.of_nat 0)) with 0.
    destruct Hinv as (Ho & Hh & Hd & Hph).
    repeat split; try assumption.
    destruct Hph as [(Hs & Hi & Hp) | [(o & Hs & Ho1 & Ho2 & Ho3 & Hi & Hp)
                                      | (Hs & Hp & Hlo & Hhi)]].
    + left. repeat split; try assumption. lra.
    + right. left. exists o. repeat split; try assumption; lra.
    + right. right. repeat split; try assumption; lra.
  - cbn [runPolls].
    pose proof (IH (p + 100) _
                  (poll_keeps_longGap t0 gap i0 p act a Ht0 Hgap Hact Hinv))
      as (Ho & Hh & Hd & Hph).
    assert (Es : p + 100 * inject_Z (Z.of_nat (S n))
                 == p + 100 + 100 * inject_Z (Z.of_nat n)).
    { rewrite Nat2Z.inj_succ, <- Z.add_1_r, inject_Z_plus.
      change (inject_Z 1) with 1. ring. }
    repeat split; try assumption.
    destruct Hph as [(Hs & Hi & Hp) | [(o & Hs & Ho1 & Ho2 & Ho3 & Hi & Hp)
                                      | (Hs & Hp & Hlo & Hhi)]].
    + left. repeat split; try assumption. lra.
    + right. left. exists o. repeat split; try assumption; lra.
    + right. right. repeat split; try assumption; lra.
Qed.

(** X16: an inactivity gap of more than a second is counted, but short:
    with a first poll no later than 500ms after the last activity and
    polls every 100ms until the activity has resumed, the idle period
    is closed and [idleTime] has grown by at least [gap - 500] and by
    less than [gap - 300]. *)
Theorem long_gap_undercounted (a : App) (t0 gap : Q) (act : Q -> Q)
  (p : Q) (n : nat) :
  sessionState a = Observing -> isDestroyed a = false ->
  idleStart a = None -> 0 <= t0 -> 1000 < gap ->
  inactivityGap t0 gap act ->
  p <= t0 + 500 ->
  t0 + gap <= p + 100 * inject_Z (Z.of_nat n) - 100 ->
  let a' := runPolls act p n a in
  let added := idleTime (metrics (state a'))
               - idleTime (metrics (state a)) in
  idleStart a' = None /\ gap - 500 <= added /\ added < gap - 300.
Proof.
  intros Hs Hd Hi Ht0 Hgap Hact Hp Hn a' added. subst added a'.
  destruct (sessionState_Observing a Hs) as [Ho Hh].
  assert (Inv : longGapInvariant t0 gap (idleTime (metrics (state a))) p a).
  { repeat split; try assumption. left. repeat split; assumption. }
  apply (polls_keep_longGap t0 gap _ act n Ht0 Hgap Hact) in Inv.
  destruct Inv as (_ & _ & _ & Hph).
  destruct Hph as [(_ & _ & Hp') | [(o & _ & _ & _ & _ & _ & Hp')
                                   | (Hs' & _ & Hlo & Hhi)]].
  - lra.
  - lra.
  - repeat split; assumption.
Qed.

Lemma long_gap_undercounted_witness :
  let a := observingAt 1000 in
  let a' := runPolls (gapThenActive 1000 1500) 1050 16 a in
  let added := idleTime (metrics (state a'))
               - idleTime (metrics (state a)) in
  idleStart a' = None /\ 1500 - 500 <= added /\ added < 1500 - 300.
Proof.
  apply (long_gap_undercounted (observingAt 1000) 1000 1500
           (gapThenActive 1000 1500) 1050 16);
    try reflexivity; try (vm_compute; discriminate).
  apply gapThenActive_gap.
Defined.

(** ** Further properties of the session clock *)

Lemma Qceiling_above (x : Q) : inject_Z (Qceiling x) < x + 1.
Proof.
  pose proof (Qceiling_lt x) as H.
  unfold Z.sub in H. rewrite inject_Z_plus, inject_Z_opp in H.
  change (inject_Z 1) with 1 in H. lra.
Qed.

Lemma remaining_range (now : Q) (s : State) :
  duration s = 30000 -> 0 <= elapsed now s ->
  (0 <= remaining now s <= 30)%Z /\
  (remaining now s = 0%Z <-> duration s <= elapsed now s).
Proof.
  intros Hd He. unfold remaining. rewrite Hd.
  set (x := (30000 - elapsed now s) / 1000).
  pose proof (Qle_ceiling x) as H1. pose proof (Qceiling_above x) as H2.
  assert (Hx : x == (30000 - elapsed now s) * (1 # 1000))
    by (unfold x, Qdiv; reflexivity).
  assert (C30 : (Qceiling x <= 30)%Z).
  { apply Z.lt_succ_r. rewrite Zlt_Qlt.
    apply Qlt_le_trans with (y := x + 1).
    - exact H2.
    - change (inject_Z (Z.succ 30)) with 31. lra. }
  split; [lia|]. split.
  - intro Hz. assert (Hc : (Qceiling x <= 0)%Z) by lia.
    rewrite Zle_Qle in Hc. change (inject_Z 0) with 0 in Hc. lra.
  - intro Hle. assert (Hc : (Qceiling x <= 0)%Z).
    { apply Z.lt_succ_r. rewrite Zlt_Qlt.
      change (inject_Z (Z.succ 0)) with 1. lra. }
    lia.
Qed.

(** X17: with the duration of 30000ms and a clock that has not run
    backwards, the countdown shows a whole number of seconds between 0
    and 30, never more after than before, and it shows 0 exactly when
    the observation time is used up. *)
Theorem remaining_bounds (now now' : Q) (s : State) :
  duration s = 30000 -> 0 <= elapsed now s -> now <= now' ->
  (0 <= remaining now s <= 30)%Z /\
  (remaining now s = 0%Z <-> duration s <= elapsed now s) /\
  (remaining now' s <= remaining now s)%Z.
Proof.
  intros Hd He Hn.
  destruct (remaining_range now s Hd He) as [R1 R2].
  split; [exact R1|]. split; [exact R2|].
  unfold remaining. apply Z.max_le_compat_l. apply Qceiling_resp_le.
  unfold elapsed, Qdiv. change (/ 1000) with (1 # 1000). lra.
Qed.

Lemma remaining_bounds_witness :
  let s := state (observingAt 1000) in
  (0 <= remaining 12345 s <= 30)%Z /\
  (remaining 12345 s = 0%Z <-> duration s <= elapsed 12345 s) /\
  (remaining 20000 s <= remaining 12345 s)%Z.
Proof.
  intro s. apply (remaining_bounds 12345 20000 s).
  - vm_compute. reflexivity.
  - vm_compute. discriminate.
  - vm_compute. discriminate.
Defined.

(** A tick before the deadline. *)
Lemma update_before_deadline (now : Q) (a : App) :
  elapsed now (state a) < duration (state a) ->
  let a' := update now a in
  isObserving (state a') = isObserving (state a) /\
  hidden (state a') = hidden (state a) /\
  metrics (state a') = metrics (state a) /\
  personality (state a') = personality (state a) /\
  scores (state a') = scores (state a) /\
  idleStart a' = idleStart a /\ isDestroyed a' = isDestroyed a /\
  countdownTimer a' = countdownTimer a /\ idleTimer a' = idleTimer a /\
  lastMouse a' = lastMouse a /\ startTime (state a') = startTime (state a).
Proof.
  intros Hlt a'. subst a'. unfold update.
  destruct (negb (isObserving (state a)) || hidden (state a)
            || isDestroyed a); [repeat split|].
  replace (Qgeb (elapsed now (state a)) (duration (state a))) with false
    by (symmetry; unfold Qgeb; apply Qltb_ge in Hlt || idtac;
        destruct (Qle_bool (duration (state a)) (elapsed now (state a)))
          eqn:E; [apply Qle_bool_iff in E; lra | reflexivity]).
  destruct (negb (remaining now (state a) =? timeRemaining (state a))%Z);
    repeat split.
Qed.

Lemma completeObservation_result (now : Q) (a : App) :
  let a' := completeObservation now a in
  isObserving (state a') = false /\
  countdownTimer a' = false /\ idleTimer a' = false /\
  metrics (state a') = metrics (state a) /\
  idleStart a' = idleStart a /\ isDestroyed a' = isDestroyed a /\
  hidden (state a') = hidden (state a) /\
  startTime (state a') = startTime (state a) /\
  exists p sc,
    personality (state a') = Some p /\ scores (state a') = Some sc /\
    int_in_range 5 95 (focus sc) /\ int_in_range 5 95 (hesitation sc) /\
    int_in_range 0 100 (controlBias sc) /\ int_in_range 5 95 (energy sc).
Proof.
  unfold completeObservation, completeObservationWith, calculateResults.
  pose proof (subScores_ranges_aux now (state (stopObservation a))) as R.
  destruct (classify now (state (stopObservation a))) as [p sc].
  cbn [snd] in R. cbn.
  repeat split. exists p, sc. repeat split; apply R.
Qed.

(** X18: the tick that finds the observation time used up completes
    the session: observation stops, both intervals are cleared, the
    metrics are untouched, and there is a result, a personality with
    four sub-scores in their ranges.  It does so once: every later tick
    and idle poll leaves the instance as it is. *)
Theorem countdown_completes (now : Q) (a : App) :
  isObserving (state a) = true -> hidden (state a) = false ->
  isDestroyed a = false ->
  duration (state a) <= elapsed now (state a) ->
  let a' := update now a in
  sessionState a' = Completed /\
  countdownTimer a' = false /\ idleTimer a' = false /\
  metrics (state a') = metrics (state a) /\
  (exists p sc,
     personality (state a') = Some p /\ scores (state a') = Some sc /\
     int_in_range 5 95 (focus sc) /\ int_in_range 5 95 (hesitation sc) /\
     int_in_range 0 100 (controlBias sc) /\
     int_in_range 5 95 (energy sc)) /\
  forall later, update later a' = a' /\ checkIdle later a' = a'.
Proof.
  intros Ho Hh Hd Hel a'. subst a'. unfold update.
  rewrite (guard_open a Ho Hh Hd).
  rewrite (proj2 (Qle_bool_iff _ _) Hel : Qgeb _ _ = true).
  set (a1 := if negb (remaining now (state a) =? timeRemaining (state a))%Z
             then upd_state (set_timeRemaining (remaining now (state a))) a
             else a).
  assert (M1 : metrics (state a1) = metrics (state a)).
  { unfold a1.
    destruct (negb (remaining now (state a) =? timeRemaining (state a))%Z);
      reflexivity. }
  destruct (completeObservation_result now a1)
    as (Eo & Ec & Ei & Em & _ & _ & _ & _ & p & sc & Ep & Es & R).
  assert (Ob : isObserving (state (completeObservation now a1)) = false)
    by exact Eo.
  split.
  { unfold sessionState. rewrite Eo, Ep. reflexivity. }
  split; [exact Ec|]. split; [exact Ei|].
  split; [rewrite Em; exact M1|].
  split; [exists p, sc; split; [exact Ep|]; split; [exact Es | exact R]|].
  intro later. unfold update, checkIdle. rewrite Ob. split; reflexivity.
Qed.

Lemma countdown_completes_witness :
  let a := observingAt 1000 in
  let a' := update 31000 a in
  sessionState a' = Completed /\
  metrics (state a') = metrics (state a) /\
  update 31100 a' = a'.
Proof.
  intro a.
  destruct (countdown_completes 31000 a)
    as (S & _ & _ & M & _ & L); try (vm_compute; reflexivity).
  - vm_compute. discriminate.
  - split; [exact S|]. split; [exact M|]. apply L.
Defined.

(** X19: a tick before the deadline changes nothing but the displayed
    [timeRemaining]: the session goes on, with its metrics, without a
    result. *)
Theorem countdown_goes_on (now : Q) (a : App) :
  elapsed now (state a) < duration (state a) ->
  let a' := update now a in
  isObserving (state a') = isObserving (state a) /\
  metrics (state a') = metrics (state a) /\
  personality (state a') = personality (state a) /\
  scores (state a') = scores (state a) /\
  idleStart a' = idleStart a /\
  countdownTimer a' = countdownTimer a /\ idleTimer a' = idleTimer a.
Proof.
  intros Hlt a'.
  destruct (update_before_deadline now a Hlt)
    as (H1 & _ & H3 & H4 & H5 & H6 & _ & H8 & H9 & _).
  repeat split; assumption.
Qed.

Lemma countdown_goes_on_witness :
  let a := observingAt 1000 in
  let a' := update 12345 a in
  isObserving (state a') = isObserving (state a) /\
  metrics (state a') = metrics (state a).
Proof.
  intro a.
  destruct (countdown_goes_on 12345 a) as (H1 & H2 & _).
  - vm_compute. reflexivity.
  - split; [exact H1 | exact H2].
Defined.

Lemma stopped_is_inert (a : App) (later : Q) :
  isObserving (state a) = false ->
  update later a = a /\ checkIdle later a = a.
Proof.
  intro H. unfold update, checkIdle. rewrite H. split; reflexivity.
Qed.

(** X20: [reset] aborts whatever session there is: afterwards the
    session is Idle, with no personality and no scores, both intervals
    are cleared, and no later tick or idle poll produces a result.  The
    metrics are left as they were. *)
Theorem reset_aborts (a : App) :
  let a' := reset a in
  sessionState a' = Idle /\
  personality (state a') = None /\ scores (state a') = None /\
  countdownTimer a' = false /\ idleTimer a' = false /\
  metrics (state a') = metrics (state a) /\
  reset a' = a' /\
  forall later, update later a' = a' /\ checkIdle later a' = a'.
Proof.
  cbv zeta. repeat split;
    try (intros; apply stopped_is_inert; reflexivity).
Qed.

(** X21: the Escape key aborts an observed session, from the typing
    field or from anywhere else; no other key changes the instance. *)
Theorem escape_key_aborts (Math_sqrt : Q -> Q) (onField : bool)
  (e : KeyEvent) (now : Q) (pg : Page) :
  let pg' := dispatch Math_sqrt (KeyDownEv onField e) now pg in
  (key e = "Escape"%string -> isObserving (state (app pg)) = true ->
   app pg' = reset (app pg)) /\
  (key e <> "Escape"%string -> app pg' = app pg).
Proof.
  cbv zeta. cbn [dispatch app]. rewrite handleKeyDown_resolves.
  unfold handleKeyDown_shortcuts. split.
  - intros Hk Ho. rewrite Hk, String.eqb_refl.
    destruct onField.
    + rewrite Ho. cbn [andb].
      change (isObserving (state (reset (app pg)))) with false.
      reflexivity.
    + rewrite Ho. reflexivity.
  - intro Hk. rewrite (proj2 (String.eqb_neq _ _) Hk). cbn [andb].
    destruct onField; cbn [andb];
      rewrite ?(proj2 (String.eqb_neq _ _) Hk); reflexivity.
Qed.

Lemma escape_key_aborts_witness :
  let pg := freshPage (observingAt 1000) in
  let e := mkKeyEvent "Escape" false false false false in
  app (dispatch (fun q => q) (KeyDownEv true e) 1500 pg) = reset (app pg) /\
  app (dispatch (fun q => q) (KeyDownEv true letterKey) 1500 pg) = app pg.
Proof.
  intros pg e. split.
  - apply (proj1 (escape_key_aborts (fun q => q) true e 1500 pg));
      reflexivity.
  - apply (proj2 (escape_key_aborts (fun q => q) true letterKey 1500 pg)).
    discriminate.
Defined.

(** X22: [beginObservation] on an idle, visible instance starts a
    session: Observing, [startTime] set, fresh metrics stamped with the
    clock, no idle period, no pointer sample, both intervals running.
    A result left by the session before stays until [reset].  On an
    instance that is already observing it does nothing, so a second
    click does not wipe the metrics. *)
Theorem beginObservation_starts (now now' : Q) (a : App) :
  (isObserving (state a) = false -> hidden (state a) = false ->
   now' - now < duration (state a) ->
   let a' := beginObservation now now' a in
   sessionState a' = Observing /\
   startTime (state a') = Some now /\
   metrics (state a') = newMetrics now' /\
   idleStart a' = None /\ lastMouse a' = newLastMouse /\
   countdownTimer a' = true /\ idleTimer a' = true /\
   personality (state a') = personality (state a)) /\
  (isObserving (state a) = true -> beginObservation now now' a = a).
Proof.
  split.
  - intros Ho Hh Hlt a'. subst a'. unfold beginObservation. rewrite Ho.
    unfold startIdleTracker, startTimer.
    match goal with
    | |- context [update now' ?x] => set (y := x)
    end.
    assert (Hel : elapsed now' (state y) < duration (state y))
      by exact Hlt.
    destruct (update_before_deadline now' y Hel)
      as (U1 & U2 & U3 & U4 & _ & U6 & _ & _ & _ & U10 & U11).
    assert (Y : isObserving (state y) = true /\
                hidden (state y) = hidden (state a) /\
                metrics (state y) = newMetrics now' /\
                personality (state y) = personality (state a) /\
                idleStart y = None /\ lastMouse y = newLastMouse /\
                startTime (state y) = Some now)
      by (repeat split).
    destruct Y as (Y1 & Y2 & Y3 & Y4 & Y6 & Y10 & Y11).
    rewrite Y1 in U1. rewrite Y2, Hh in U2. rewrite Y3 in U3.
    rewrite Y4 in U4. rewrite Y6 in U6. rewrite Y10 in U10.
    rewrite Y11 in U11.
    generalize dependent (update now' y). clear y Hel Y1 Y2 Y3 Y4 Y6 Y10 Y11.
    intros u U1 U2 U3 U4 U6 U10 U11.
    unfold sessionState.
    cbn [set_idleTimer set_countdownTimer state idleStart lastMouse
         countdownTimer idleTimer].
    rewrite U1, U2. repeat split; assumption.
  - intro Ho. unfold beginObservation. rewrite Ho. reflexivity.
Qed.

Lemma beginObservation_starts_witness :
  let a' := beginObservation 1000 1000 initialApp in
  sessionState a' = Observing /\
  startTime (state a') = Some 1000 /\
  metrics (state a') = newMetrics 1000 /\
  idleStart a' = None /\ lastMouse a' = newLastMouse /\
  countdownTimer a' = true /\ idleTimer a' = true /\
  personality (state a') = personality (state initialApp).
Proof.
  apply (proj1 (beginObservation_starts 1000 1000 initialApp));
    vm_compute; reflexivity.
Defined.

(** X23: after [destroy] the instance is inert: it is marked
    destroyed, a second [destroy] changes nothing, and no recorder, no
    countdown tick and no idle poll changes anything.  Destroying a
    live instance stops its observation and clears both intervals
    without touching the metrics. *)
Theorem destroyed_is_inert (a : App) :
  let d := destroy a in
  isDestroyed d = true /\ destroy d = d /\
  (forall Math_sqrt op now, recorder Math_sqrt op now d = d) /\
  (forall now, update now d = d /\ checkIdle now d = d) /\
  (isDestroyed a = false ->
   isObserving (state d) = false /\ countdownTimer d = false /\
   idleTimer d = false /\ metrics (state d) = metrics (state a)).
Proof.
  intro d.
  assert (Hd : isDestroyed d = true).
  { unfold d, destroy. destruct (isDestroyed a) eqn:E; [exact E|].
    reflexivity. }
  assert (G : negb (isObserving (state d)) || hidden (state d)
              || isDestroyed d = true)
    by (rewrite Hd; apply orb_true_r).
  split; [exact Hd|]. split.
  { unfold destroy at 1. rewrite Hd. reflexivity. }
  split.
  { intros Math_sqrt op now. destruct op as [e| |e|e|e]; cbn [recorder].
    - unfold handleMouseMove. rewrite G. reflexivity.
    - unfold handleScroll. rewrite G. reflexivity.
    - unfold handleWheel. rewrite G. reflexivity.
    - unfold handleClick. rewrite G. reflexivity.
    - unfold handleKeyDown_recorder. rewrite Hd, orb_true_r. reflexivity. }
  split.
  { intro now. unfold update, checkIdle. rewrite G. split; reflexivity. }
  intro Ha. unfold d, destroy. rewrite Ha. repeat split.
Qed.

Lemma destroyed_is_inert_witness :
  let d := destroy (observingAt 1000) in
  isObserving (state d) = false /\ countdownTimer d = false /\
  idleTimer d = false /\
  metrics (state d) = metrics (state (observingAt 1000)).
Proof.
  apply (proj2 (proj2 (proj2 (proj2
           (destroyed_is_inert (observingAt 1000)))))).
  vm_compute. reflexivity.
Defined.




(** ** Random numbers and the ambient particles *)

(** X25: with [window.crypto] present, [safeRandom] returns a number
    of the half-open unit interval: at least 0 and less than 1. *)
Theorem safeRandom_unit_interval (word : N) (mathRandom : Q) :
  0 <= safeRandom (Some word) mathRandom /\
  safeRandom (Some word) mathRandom < 1.
Proof.
  unfold safeRandom.
  assert (Hw : (word mod 2 ^ 32 < 2 ^ 32)%N)
    by (apply N.mod_lt; discriminate).
  set (n := (word mod 2 ^ 32)%N) in *.
  assert (Hd : NQ 4294967295 + 1 == 4294967296) by reflexivity.
  assert (H0 : 0 <= NQ n) by apply NQ_nonneg.
  assert (H1 : NQ n < 4294967296).
  { unfold NQ. change 4294967296 with (inject_Z 4294967296).
    rewrite <- Zlt_Qlt. change (2 ^ 32)%N with 4294967296%N in Hw. lia. }
  rewrite Hd. split.
  - apply Qle_shift_div_l; [reflexivity | lra].
  - apply Qlt_shift_div_r; [reflexivity | lra].
Qed.

Lemma pushParticles_length (Math_PI : Q) (random : nat -> Q) (w h : Q)
  (n i : nat) :
  List.length (pushParticles Math_PI random w h i n) = n.
Proof.
  revert i. induction n as [|n IH]; intro i; cbn [pushParticles List.length];
    [reflexivity|]. rewrite IH. reflexivity.
Qed.

Lemma scaled_unit (r w : Q) : 0 <= r -> r < 1 -> 0 <= w ->
  0 <= r * w /\ r * w <= w.
Proof.
  intros H0 H1 Hw. split.
  - apply Qmult_le_0_compat; assumption.
  - rewrite <- (Qmult_1_l w) at 2.
    apply Qmult_le_compat_r; [lra | exact Hw].
Qed.

(** What [createParticles] promises of one particle in a viewport of
    [w] by [h]. *)
Lemma pushParticles_bounds (Math_PI : Q) (random : nat -> Q) (w h : Q)
  (n i : nat) :
  (forall k, 0 <= random k /\ random k < 1) -> 0 <= w -> 0 <= h ->
  Forall
    (fun p =>
       (0 <= p_x p /\ p_x p <= w) /\ (0 <= p_y p /\ p_y p <= h) /\
       (- (15 # 100) <= p_vx p /\ p_vx p <= 15 # 100) /\
       (- (15 # 100) <= p_vy p /\ p_vy p <= 15 # 100) /\
       ((1 # 2) <= p_radius p /\ p_radius p <= 5 # 2) /\
       ((2 # 100) <= p_opacity p /\ p_opacity p <= 12 # 100) /\
       p_originalVx p = p_vx p /\ p_originalVy p = p_vy p)
    (pushParticles Math_PI random w h i n).
Proof.
  intros Hr Hw Hh. revert i.
  induction n as [|n IH]; intro i; cbn [pushParticles]; constructor.
  - cbn [p_x p_y p_vx p_vy p_radius p_opacity p_originalVx p_originalVy].
    pose proof (Hr (7 * i)%nat) as [A0 A1].
    pose proof (Hr (7 * i + 1)%nat) as [B0 B1].
    pose proof (Hr (7 * i + 2)%nat) as [C0 C1].
    pose proof (Hr (7 * i + 3)%nat) as [D0 D1].
    pose proof (Hr (7 * i + 4)%nat) as [E0 E1].
    pose proof (Hr (7 * i + 5)%nat) as [F0 F1].
    split; [apply scaled_unit; assumption|].
    split; [apply scaled_unit; assumption|].
    repeat split; try reflexivity; lra.
  - apply IH.
Qed.

(** X26: [createParticles] makes between 5 and 25 particles, whatever
    the size of the viewport, each inside the viewport, no faster than
    0.15 per frame along each axis, with radius between 0.5 and 2.5 and
    opacity between 0.02 and 0.12, the ends included, and with its
    velocity remembered as the original one; with reduced motion, or
    without a canvas, it makes none. *)
Theorem createParticles_bounds (Math_PI : Q) (random : nat -> Q)
  (w h : Q) :
  (forall k, 0 <= random k /\ random k < 1) -> 0 <= w -> 0 <= h ->
  let ps := createParticles Math_PI random false true w h in
  (5 <= List.length ps <= 25)%nat /\
  Forall
    (fun p =>
       (0 <= p_x p /\ p_x p <= w) /\ (0 <= p_y p /\ p_y p <= h) /\
       (- (15 # 100) <= p_vx p /\ p_vx p <= 15 # 100) /\
       (- (15 # 100) <= p_vy p /\ p_vy p <= 15 # 100) /\
       ((1 # 2) <= p_radius p /\ p_radius p <= 5 # 2) /\
       ((2 # 100) <= p_opacity p /\ p_opacity p <= 12 # 100) /\
       p_originalVx p = p_vx p /\ p_originalVy p = p_vy p) ps /\
  (forall canvas, createParticles Math_PI random true canvas w h = []) /\
  (forall rm, createParticles Math_PI random rm false w h = []).
Proof.
  intros Hr Hw Hh ps. subst ps. unfold createParticles. cbn [orb negb].
  split.
  - rewrite pushParticles_length. unfold particleCount. lia.
  - split; [apply pushParticles_bounds; assumption|].
    split; [reflexivity|]. intro rm. rewrite orb_true_r. reflexivity.
Qed.

Lemma createParticles_bounds_witness :
  let random := fun k : nat => 1 # 3 in
  let ps := createParticles 3 random false true 1920 1080 in
  (5 <= List.length ps <= 25)%nat.
Proof.
  intros random.
  apply (createParticles_bounds 3 random 1920 1080).
  - intro k. split; vm_compute; [discriminate | reflexivity].
  - vm_compute. discriminate.
  - vm_compute. discriminate.
Defined.

Lemma bounce_range (pos vel limit : Q) :
  20 <= limit ->
  10 <= fst (bounce pos vel limit) /\
  fst (bounce pos vel limit) <= limit - 10.
Proof.
  intro Hl. unfold bounce.
  destruct (Qltb pos 10) eqn:E1.
  - cbn [fst]. lra.
  - apply Qltb_ge in E1.
    destruct (Qgtb pos (limit - 10)) eqn:E2; cbn [fst].
    + lra.
    + apply Qgtb_le in E2. lra.
Qed.

(** X27: a particle never leaves the viewport: in a viewport of at
    least 20 by 20, after every [updateParticle] its position is
    between the padding of 10 and the far edge less 10, whatever its
    velocity, the personality and the values of the sine and cosine;
    its radius and opacity are kept.  With reduced motion it does not
    move. *)
Theorem particle_stays_inside (Math_sin Math_cos : Q -> Q)
  (who : option Archetype) (w h : Q) (p : Particle) (time : Q)
  (index : nat) :
  20 <= w -> 20 <= h ->
  let p' := updateParticle Math_sin Math_cos false who w h p time index in
  (10 <= p_x p' /\ p_x p' <= w - 10) /\
  (10 <= p_y p' /\ p_y p' <= h - 10) /\
  p_radius p' = p_radius p /\ p_opacity p' = p_opacity p /\
  updateParticle Math_sin Math_cos true who w h p time index = p.
Proof.
  intros Hw Hh p'. subst p'. unfold updateParticle.
  destruct (match who with
            | Some Restless =>
                ((p_vx p + Math_sin (time + inject_Z (Z.of_nat index))
                           * (1 # 100)) * (99 # 100),
                 (p_vy p + Math_cos (time * (15 # 10)
                                     + inject_Z (Z.of_nat index))
                           * (1 # 100)) * (99 # 100))
            | _ => (p_vx p, p_vy p)
            end) as [vx vy].
  match goal with
  | |- context [bounce ?x vx w] =>
      pose proof (bounce_range x vx w Hw) as Bx;
      destruct (bounce x vx w) as [x' vx']
  end.
  match goal with
  | |- context [bounce ?y vy h] =>
      pose proof (bounce_range y vy h Hh) as By;
      destruct (bounce y vy h) as [y' vy']
  end.
  cbn [fst] in Bx, By. cbn [p_x p_y p_radius p_opacity].
  repeat split; try apply Bx; try apply By.
Qed.

Lemma particle_stays_inside_witness :
  let p := mkParticle 5 2000 (-1) 3 1 (1 # 10) 0 (-1) 3 in
  let p' :=
    updateParticle (fun q => q) (fun q => q) false (Some Restless)
      1920 1080 p 7 0 in
  (10 <= p_x p' /\ p_x p' <= 1920 - 10) /\
  (10 <= p_y p' /\ p_y p' <= 1080 - 10) /\
  p_radius p' = p_radius p /\ p_opacity p' = p_opacity p /\
  updateParticle (fun q => q) (fun q => q) true (Some Restless)
    1920 1080 p 7 0 = p.
Proof.
  intro p.
  apply (particle_stays_inside (fun q => q) (fun q => q) (Some Restless)
           1920 1080 p 7 0); vm_compute; discriminate.
Defined.

Lemma boost_range (v : Q) : -2 <= boost v /\ boost v <= 2.
Proof.
  unfold boost.
  destruct (Qmin2_spec 2 (v * (15 # 10))) as [[H1 E1]|[H1 E1]];
    rewrite E1;
    [destruct (Qmax2_spec (-2) 2) as [[H2 E2]|[H2 E2]]
    |destruct (Qmax2_spec (-2) (v * (15 # 10))) as [[H2 E2]|[H2 E2]]];
    rewrite E2; lra.
Qed.

Lemma applyTheme_again (reducedMotion : bool) (ps : list Particle)
  (a : App) :
  let r := applyTheme reducedMotion ps a in
  applyTheme reducedMotion (snd r) (fst r) = r.
Proof.
  cbv zeta. unfold applyTheme.
  destruct (personality (state a)) as [who|] eqn:Ep.
  2:{ cbn [fst snd]. rewrite Ep. reflexivity. }
  destruct (themeApplied (state a) || isDestroyed a) eqn:G.
  { cbn [fst snd]. rewrite Ep, G. reflexivity. }
  destruct reducedMotion; [|destruct (Archetype_eqb who Impulsive)];
    cbn [fst snd]; cbn; rewrite Ep; reflexivity.
Qed.

Lemma applyTheme_length (reducedMotion : bool) (ps : list Particle)
  (a : App) :
  List.length (snd (applyTheme reducedMotion ps a)) = List.length ps.
Proof.
  unfold applyTheme.
  destruct (personality (state a)) as [who|]; [|reflexivity].
  destruct (themeApplied (state a) || isDestroyed a); [reflexivity|].
  destruct reducedMotion; [reflexivity|].
  destruct (Archetype_eqb who Impulsive); [|reflexivity].
  cbn [snd]. apply length_map.
Qed.

(** X28: [applyTheme] takes effect once: applied again to its own
    result it changes nothing, so the speed-up of the Impulsive theme
    is not compounded.  For an Impulsive result it leaves every
    particle with a velocity between -2 and 2 along each axis, and it
    neither adds nor removes a particle. *)
Theorem applyTheme_once (reducedMotion : bool) (ps : list Particle)
  (a : App) :
  let r := applyTheme reducedMotion ps a in
  applyTheme reducedMotion (snd r) (fst r) = r /\
  List.length (snd r) = List.length ps /\
  (personality (state a) = Some Impulsive ->
   themeApplied (state a) = false -> isDestroyed a = false ->
   reducedMotion = false ->
   themeApplied (state (fst r)) = true /\
   Forall (fun p => (-2 <= p_vx p /\ p_vx p <= 2) /\
                    (-2 <= p_vy p /\ p_vy p <= 2)) (snd r)).
Proof.
  intro r. subst r.
  split; [apply applyTheme_again|]. split; [apply applyTheme_length|].
  intros Hp Ht Hd Hr. unfold applyTheme. rewrite Hp, Ht, Hd, Hr.
  cbn [orb Archetype_eqb fst snd]. split; [reflexivity|].
  apply Forall_forall. intros p Hin. apply in_map_iff in Hin.
  destruct Hin as (p0 & <- & _). cbn [boostParticle p_vx p_vy].
  split; apply boost_range.
Qed.

Lemma applyTheme_once_witness :
  let a := completeObservation 31000
             (upd_metrics (set_maxVelocity 4)
                (upd_metrics (set_jitterCount 50)
                   (upd_metrics (set_keystrokes 10) (observingAt 1000)))) in
  let ps := [mkParticle 100 100 5 (-7) 1 (1 # 10) 0 5 (-7)] in
  let r := applyTheme false ps a in
  themeApplied (state (fst r)) = true /\
  Forall (fun p => (-2 <= p_vx p /\ p_vx p <= 2) /\
                   (-2 <= p_vy p /\ p_vy p <= 2)) (snd r).
Proof.
  intros a ps.
  apply (proj2 (proj2 (applyTheme_once false ps a)));
    vm_compute; reflexivity.
Defined.

(** ** The earlier version, [part_000] *)

Lemma validScore_range (v center : jsnum) :
  v <> NaN -> int_in_range 5 95 (Part000.validScore (normalizeScore v center)).
Proof.
  intro H. destruct (normalizeScore_not_NaN v center H) as (z & E & R).
  rewrite E. unfold Part000.validScore. cbn. exists z. split; [reflexivity|].
  exact R.
Qed.

(** X29: in [part_000] too the four sub-scores are integers of the
    range 5..95, [controlBias] included, which is normalized there like
    the others. *)
Theorem part000_scores_range (s : State) :
  let sc := snd (Part000.classify s) in
  int_in_range 5 95 (focus sc) /\ int_in_range 5 95 (hesitation sc) /\
  int_in_range 5 95 (controlBias sc) /\ int_in_range 5 95 (energy sc).
Proof.
  unfold Part000.classify, Part000.subScores.
  cbn [snd focus hesitation controlBias energy].
  repeat split; apply validScore_range; try discriminate.
  cbn [Math_min]. destruct (Qle_bool _ _); discriminate.
Qed.


